(** * Fantasy Football Metrics Weekly Report: the orchestration script

    A shallow embedding of [main.py]: the start-up check of [config.ini],
    [main] (dependency preflight and command-line parsing), the interactive
    resolvers [select_league] and [select_week], and the [__main__] block
    that builds the report and distributes it to Google Drive and Slack.

    The script talks to its operator and to its collaborators; it is
    modelled as a computation over the lines still to be read from standard
    input, which returns an outcome (a value, an uncaught exception or a
    [sys.exit]) and the list of the observable events it performed, in
    order. *)

From Stdlib Require Import ZArith NArith List String Ascii Lia DecimalString.
From stdpp Require Import base option gmap strings.

Open Scope string_scope.
Open Scope list_scope.

(** ** Python values and builtins *)

(** The values that travel through [options_dict] and the keyword arguments
    of [FantasyFootballReport]: [None], strings and booleans. *)
Inductive pyval : Type :=
  | PyNone
  | PyStr (s : string)
  | PyBool (b : bool).

(** Truth value of an object, as [if x] / [not x] test it. *)
Definition truthy (v : pyval) : bool :=
  match v with
  | PyNone => false
  | PyStr s => negb (String.eqb s "")
  | PyBool b => b
  end.

(** Strings are restricted to ASCII code points. *)
Definition code (c : ascii) : N := N_of_ascii c.

Definition nl : string := String "010"%char "".
Definition dquote : string := String "034"%char "".

(** [Py_ISSPACE]: the white space [int] skips around a literal. *)
Definition is_c_space (c : ascii) : bool :=
  ((9 <=? code c) && (code c <=? 13) || (code c =? 32))%N.

(** White space of [str.strip] (the ASCII part of [str.isspace]). *)
Definition is_py_space (c : ascii) : bool :=
  ((9 <=? code c) && (code c <=? 13) || (28 <=? code c) && (code c <=? 32))%N.

Definition is_digit (c : ascii) : bool :=
  ((48 <=? code c) && (code c <=? 57))%N.

(** [\w] of the [re] module (ASCII part): letters, digits and underscore. *)
Definition is_word (c : ascii) : bool :=
  (is_digit c
   || (65 <=? code c) && (code c <=? 90)
   || (97 <=? code c) && (code c <=? 122)
   || (code c =? 95))%N.

Fixpoint lstrip (sp : ascii -> bool) (s : string) : string :=
  match s with
  | "" => ""
  | String c r => if sp c then lstrip sp r else s
  end.

Fixpoint rstrip (sp : ascii -> bool) (s : string) : string :=
  match s with
  | "" => ""
  | String c r =>
      match rstrip sp r with
      | "" => if sp c then "" else String c ""
      | r' => String c r'
      end
  end.

(** [s.strip()] *)
Definition strip (s : string) : string := rstrip is_py_space (lstrip is_py_space s).

(** [s.startswith(p)] *)
Definition startswith (p s : string) : bool := String.prefix p s.

(** [re.split("\W+", s)[0]]: the word characters before the first
    separator. *)
Fixpoint first_word (s : string) : string :=
  match s with
  | "" => ""
  | String c r => if is_word c then String c (first_word r) else ""
  end.

(** [str(n)] for a count. *)
Definition str_of_nat (n : nat) : string := NilEmpty.string_of_uint (Nat.to_uint n).

(** The digits of a decimal literal, most significant first; a single
    underscore may separate two digits (PEP 515). [after_digit] tells
    whether the previous character was a digit. *)
Fixpoint int_digits (acc : Z) (after_digit : bool) (s : string) : option Z :=
  match s with
  | "" => if after_digit then Some acc else None
  | String c r =>
      if is_digit c then int_digits (10 * acc + Z.of_N (code c - 48)) true r
      else if (code c =? 95)%N && after_digit then int_digits acc false r
      else None
  end.

(** [int(s)] on a string, base 10: [None] stands for [ValueError]. *)
Definition int (s : string) : option Z :=
  match rstrip is_c_space (lstrip is_c_space s) with
  | String "+" r => int_digits 0 false r
  | String "-" r => Z.opp <$> int_digits 0 false r
  | r => int_digits 0 false r
  end.

(** ** Outcomes, events and the monad of the script *)

Inductive exn : Type :=
  | EOFError
  | ValueError
  | IndexError
  | AttributeError
  | RecursionError
  | GetoptError
  | OtherError (name : string).

(** How a piece of the script ends: it returns, an exception escapes it, or
    [sys.exit] was called ([Exit None] is [sys.exit()]). *)
Inductive outcome (A : Type) : Type :=
  | Ret (a : A)
  | Raise (e : exn)
  | Exit (status : option Z).
Arguments Ret {A} a.
Arguments Raise {A} e.
Arguments Exit {A} status.

(** The exit status of the process: 0 after a normal end and after
    [sys.exit()], the given number after [sys.exit(n)], 1 after an uncaught
    exception. *)
Definition exit_status {A} (o : outcome A) : Z :=
  match o with
  | Ret _ => 0
  | Raise _ => 1
  | Exit None => 0
  | Exit (Some n) => n
  end.

Inductive level : Type := DEBUG | INFO | WARNING | ERROR.

(** The keyword arguments of [FantasyFootballReport(...)]; [config] is the
    module's global and is left out. [league_id] is [None] where the call
    does not pass that keyword. *)
Record report_args : Type := {
  week_for_report : pyval;
  platform : pyval;
  league_id : option pyval;
  game_id : pyval;
  season : pyval;
  refresh_web_data : pyval;
  playoff_prob_sims : pyval;
  break_ties : pyval;
  dq_ce : pyval;
  save_data : pyval;
  dev_offline : pyval;
  test : pyval
}.

Inductive event : Type :=
  | EInput (prompt : string)
  | EPrint (text : string)
  | ELog (lvl : level) (msg : string)
  | EBuild (args : report_args)
  | ECreatePdf
  | EDriveUploader (report_pdf : string)
  | EDriveUpload
  | ESlackMessenger
  | ESlackPost (message : string)
  | ESlackFile (report_pdf : string).

(** A computation reads answers from standard input and yields an outcome,
    the unread answers and the events it performed. *)
Definition M (A : Type) : Type :=
  list string -> outcome A * list string * list event.

Definition outcome_of {A} (r : outcome A * list string * list event) : outcome A := r.1.1.
Definition unread_of {A} (r : outcome A * list string * list event) : list string := r.1.2.
Definition events_of {A} (r : outcome A * list string * list event) : list event := r.2.

Definition M_ret {A} (a : A) : M A := fun stdin => (Ret a, stdin, []).

Definition M_bind {A B} (f : A -> M B) (m : M A) : M B := fun stdin =>
  match m stdin with
  | (Ret a, stdin', evs) =>
      match f a stdin' with
      | (r, stdin'', evs') => (r, stdin'', evs ++ evs')
      end
  | (Raise e, stdin', evs) => (Raise e, stdin', evs)
  | (Exit c, stdin', evs) => (Exit c, stdin', evs)
  end.

#[global] Instance M_mret : MRet M := @M_ret.
#[global] Instance M_mbind : MBind M := @M_bind.

Definition emit (e : event) : M unit := fun stdin => (Ret tt, stdin, [e]).
Definition raise {A} (e : exn) : M A := fun stdin => (Raise e, stdin, []).
Definition sys_exit {A} (status : option Z) : M A := fun stdin => (Exit status, stdin, []).

(** The outcome of a call into a collaborator, lifted into the script. *)
Definition lift {A} (o : outcome A) : M A := fun stdin => (o, stdin, []).

(** [input(prompt)]: [EOFError] at the end of standard input. *)
Definition input (prompt : string) : M string := fun stdin =>
  match stdin with
  | [] => (Raise EOFError, [], [EInput prompt])
  | answer :: stdin' => (Ret answer, stdin', [EInput prompt])
  end.

Definition print (text : string) : M unit := emit (EPrint text).
Definition log (lvl : level) (msg : string) : M unit := emit (ELog lvl msg).

(** [try: body except IndexError: handler] *)
Definition try_except_IndexError {A} (body handler : M A) : M A := fun stdin =>
  match body stdin with
  | (Raise IndexError, stdin', evs) =>
      match handler stdin' with
      | (r, stdin'', evs') => (r, stdin'', evs ++ evs')
      end
  | r => r
  end.

(** [int(s)] as a step of the script. *)
Definition int_of (s : string) : M Z :=
  match int s with
  | Some n => mret n
  | None => raise ValueError
  end.

(** ** [select_week] *)

(** [fuel] bounds the depth of the recursion; a call that has none left
    ends like Python at its recursion limit. *)
Fixpoint select_week_rec (fuel : nat) : M pyval :=
  match fuel with
  | O => raise RecursionError
  | S fuel =>
      default ← input "Generate report for default week? (y/n) -> ";
      if String.eqb default "y" then mret PyNone
      else if String.eqb default "n" then
        chosen_week ← input "For which week would you like to generate a report? (1 - 17) -> ";
        n ← int_of chosen_week;
        if (0 <? n)%Z && (n <? 18)%Z then mret (PyStr chosen_week)
        else
          print "Please select a valid week number between 1 and 17.";;
          select_week_rec fuel;;
          mret PyNone
      else
        print "You must select either 'y' or 'n'.";;
        select_week_rec fuel;;
        mret PyNone
  end.

(** Every recursive call is made after an answer was read, so one frame
    more than there are answers is always enough. *)
Definition select_week : M pyval := fun stdin =>
  select_week_rec (S (length stdin)) stdin.

(** ** The environment and the collaborators *)

(** What [pkg_resources.require] does on a requirement line. The two
    failures the script handles carry the text of the exception and of
    [traceback.format_exc()]; any other exception escapes. *)
Inductive require_result : Type :=
  | Satisfied
  | DistributionNotFound (err traceback : string)
  | VersionConflict (err traceback : string)
  | RequireRaises (e : exn).

(** The outcome dictionary of a Slack call, read with [.get("ok")] and
    [.get("error")]. *)
Record slack_response : Type := {
  ok : bool;
  error : string
}.

(** The three settings the script reads from [config.ini]. *)
Record config_ini : Type := {
  google_drive_upload : bool;
  post_to_slack : bool;
  post_or_file : string
}.

(** The opaque services the script calls: the installed distributions, the
    report builder, the Google Drive uploader and the Slack messenger. *)
Class Collaborators : Type := {
  Report : Type;
  Uploader : Type;
  Messenger : Type;
  require : string -> require_result;
  FantasyFootballReport : report_args -> outcome Report;
  create_pdf_report : Report -> outcome string;
  GoogleDriveUploader : string -> outcome Uploader;
  upload_file : Uploader -> outcome string;
  SlackMessenger : outcome Messenger;
  post_to_selected_slack_channel : Messenger -> string -> outcome slack_response;
  upload_file_to_selected_slack_channel : Messenger -> string -> outcome slack_response
}.

(** What the process finds when it starts. *)
Record world : Type := {
  config_isfile : bool;
  config_access : bool;
  config : config_ini;
  requirements_txt : list string;
  argv : list string
}.

(** ** [select_league] *)

Section Resolver.
Context `{C : Collaborators}.

(** [week_for_report] as each branch of [select_league] computes it. *)
Definition resolve_week (week : pyval) : M pyval :=
  if negb (truthy week) then select_week else mret week.

Definition build (args : report_args) : M Report :=
  emit (EBuild args);; lift (FantasyFootballReport args).

(** The result is [None] where the Python function ends without a
    [return]. *)
Fixpoint select_league_rec (fuel : nat)
    (week platform league_id game_id season refresh_web_data playoff_prob_sims
       break_ties dq_ce save_data dev_offline test : pyval) : M (option Report) :=
  match fuel with
  | O => raise RecursionError
  | S fuel =>
      default ← (if negb (truthy league_id)
                 then input "Generate report for default league? (y/n) -> "
                 else mret "selected");
      if String.eqb default "y" then
        week_for_report ← resolve_week week;
        report ← build {| week_for_report := week_for_report;
                          platform := platform;
                          league_id := None;
                          game_id := game_id;
                          season := season;
                          refresh_web_data := refresh_web_data;
                          playoff_prob_sims := playoff_prob_sims;
                          break_ties := break_ties;
                          dq_ce := dq_ce;
                          save_data := save_data;
                          dev_offline := dev_offline;
                          test := test |};
        mret (Some report)
      else if String.eqb default "n" then
        league_id ← input "What is the league ID of the league for which you want to generate a report? -> ";
        week_for_report ← resolve_week week;
        try_except_IndexError
          (report ← build {| week_for_report := week_for_report;
                             platform := platform;
                             league_id := Some (PyStr league_id);
                             game_id := game_id;
                             season := season;
                             refresh_web_data := refresh_web_data;
                             playoff_prob_sims := playoff_prob_sims;
                             break_ties := break_ties;
                             dq_ce := dq_ce;
                             save_data := save_data;
                             dev_offline := dev_offline;
                             test := test |};
           mret (Some report))
          (print "The league ID you have selected is not valid.";;
           select_league_rec fuel week platform PyNone game_id season refresh_web_data
             playoff_prob_sims break_ties dq_ce save_data dev_offline test;;
           mret None)
      else if String.eqb default "selected" then
        week_for_report ← resolve_week week;
        report ← build {| week_for_report := week_for_report;
                          platform := platform;
                          league_id := Some league_id;
                          game_id := game_id;
                          season := season;
                          refresh_web_data := refresh_web_data;
                          playoff_prob_sims := playoff_prob_sims;
                          break_ties := break_ties;
                          dq_ce := dq_ce;
                          save_data := save_data;
                          dev_offline := dev_offline;
                          test := test |};
        mret (Some report)
      else
        print "You must select either 'y' or 'n'.";;
        select_league_rec fuel week platform PyNone game_id season refresh_web_data
          playoff_prob_sims break_ties dq_ce save_data dev_offline test;;
        mret None
  end.

(** A recursive call follows an answer read by the same call, so one frame
    more than there are answers is enough. *)
Definition select_league
    (week platform league_id game_id season refresh_web_data playoff_prob_sims
       break_ties dq_ce save_data dev_offline test : pyval) : M (option Report) :=
  fun stdin =>
    select_league_rec (S (length stdin)) week platform league_id game_id season
      refresh_web_data playoff_prob_sims break_ties dq_ce save_data dev_offline test stdin.

End Resolver.

(** ** [getopt.getopt] for short options *)

(** [short_has_arg]: [None] stands for [GetoptError] (option not
    recognized). *)
Fixpoint short_has_arg (opt : ascii) (shortopts : string) : option bool :=
  match shortopts with
  | "" => None
  | String c rest =>
      if Ascii.eqb opt c && negb (Ascii.eqb c ":") then Some (startswith ":" rest)
      else short_has_arg opt rest
  end.

(** [do_shorts]: the options bundled in one argument; an option that takes
    a value reads the rest of the argument or, when that is empty, the next
    argument. *)
Fixpoint do_shorts (opts : list (string * string)) (optstring shortopts : string)
    (args : list string) : option (list (string * string) * list string) :=
  match optstring with
  | "" => Some (opts, args)
  | String opt optstring =>
      match short_has_arg opt shortopts with
      | None => None
      | Some true =>
          if String.eqb optstring "" then
            match args with
            | [] => None
            | optarg :: args => Some (opts ++ [(String "-" (String opt ""), optarg)], args)
            end
          else Some (opts ++ [(String "-" (String opt ""), optstring)], args)
      | Some false =>
          do_shorts (opts ++ [(String "-" (String opt ""), "")]) optstring shortopts args
      end
  end.

(** The loop of [getopt.getopt(args, shortopts)], called without long
    options: an argument that starts with two dashes and is not the bare
    separator is not recognized. Every round drops an argument, which
    bounds [fuel]. *)
Fixpoint getopt_loop (fuel : nat) (opts : list (string * string)) (shortopts : string)
    (args : list string) : option (list (string * string) * list string) :=
  match fuel, args with
  | S fuel, a :: rest =>
      if startswith "-" a && negb (String.eqb a "-") then
        if String.eqb a "--" then Some (opts, rest)
        else if startswith "--" a then None
        else
          match do_shorts opts (String.substring 1 (String.length a - 1) a) shortopts rest with
          | None => None
          | Some (opts, args) => getopt_loop fuel opts shortopts args
          end
      else Some (opts, args)
  | _, _ => Some (opts, args)
  end.

Definition getopt (args : list string) (shortopts : string)
    : option (list (string * string) * list string) :=
  getopt_loop (length args) [] shortopts args.

(** ** [main]: dependency preflight and command-line parsing *)

Definition usage_str : string :=
  nl +:+
  "Fantasy Football Report application usage:" +:+ nl +:+ nl +:+
  "    python main.py [optional_parameters]" +:+ nl +:+ nl +:+
  "  Options:" +:+ nl +:+
  "      -h, --help                         Print command line usage message." +:+ nl +:+
  "    Generate report:" +:+ nl +:+
  "      -l, --fantasy-platform <platform>  Fantasy football platform on which league for report is hosted. Currently supports: " +:+ dquote +:+ "yahoo" +:+ dquote +:+ ", " +:+ dquote +:+ "fleaflicker" +:+ dquote +:+ " " +:+ nl +:+
  "      -l, --league-id <league_id>        Fantasy Football league ID." +:+ nl +:+
  "      -w, --week <chosen_week>           Chosen week for which to generate report." +:+ nl +:+
  "      -g, --game-id <chosen_game_id>     Chosen fantasy game id for which to generate report. Defaults to " +:+ dquote +:+ "nfl" +:+ dquote +:+ ", which is interpreted as the current season if using Yahoo." +:+ nl +:+
  "      -y, --year <chosen_year>           Chosen year (season) of the league for which a report is being generated." +:+ nl +:+
  "    Configuration:" +:+ nl +:+
  "      -s, --save-data                    Save all retrieved data locally for faster future report generation." +:+ nl +:+
  "      -r, --refresh-web-data             Refresh all web data from external APIs (such as bad boy and beef data)." +:+ nl +:+
  "      -p, --playoff-prob-sims            Number of Monte Carlo playoff probability simulations to run." +:+ nl +:+
  "      -b, --break-ties                   Break ties in metric rankings." +:+ nl +:+
  "      -q, --disqualify-ce                Automatically disqualify teams ineligible for coaching efficiency metric." +:+ nl +:+
  "    For Developers:" +:+ nl +:+
  "      -d, --dev-offline                  Run OFFLINE for development. Must have previously run report with -s option." +:+ nl +:+
  "      -t, --test                         Generate TEST report." +:+ nl.

(** [options.get(key, default)] *)
Definition get (options : gmap string pyval) (key : string) (default : pyval) : pyval :=
  match options !! key with
  | Some v => v
  | None => default
  end.

Section Script.
Context `{C : Collaborators}.

(** The lines of [requirements.txt] that are not comments, stripped. *)
Definition dependencies_of (lines : list string) : list string :=
  map strip (List.filter (fun line => negb (startswith "#" line)) lines).

Definition missing_dependency_msg (dependency package : string) : string :=
  "MISSING DEPENDENCY: " +:+ dependency +:+ ". Please run `pip install " +:+ package
    +:+ "` and retry the report generation.".

(** The [for dependency in dependencies] loop, threading
    [missing_dependency_count]. *)
Fixpoint check_dependencies (dependencies : list string) (missing_dependency_count : nat)
    : M nat :=
  match dependencies with
  | [] => mret missing_dependency_count
  | dependency :: dependencies =>
      missing_dependency_count ←
        match require dependency with
        | Satisfied => mret missing_dependency_count
        | DistributionNotFound dnfe tb =>
            log ERROR ("Error: " +:+ dnfe +:+ nl +:+ tb);;
            log ERROR (missing_dependency_msg dependency (first_word dependency));;
            mret (S missing_dependency_count)
        | VersionConflict vce tb =>
            log ERROR ("Error: " +:+ vce +:+ nl +:+ tb);;
            log ERROR (missing_dependency_msg dependency dependency);;
            mret (S missing_dependency_count)
        | RequireRaises e => raise e
        end;
      check_dependencies dependencies missing_dependency_count
  end.

Definition missing_summary (missing_dependency_count : nat) : string :=
  ("MISSING " +:+ str_of_nat missing_dependency_count +:+ " ")
    +:+ (if Nat.eqb missing_dependency_count 1 then "DEPENDENCY" else "DEPENDENCIES")
    +:+ ". Report generation aborted.".

Definition is_opt (opt short long : string) : bool :=
  String.eqb opt short || String.eqb opt long.

(** One round of [for opt, arg in opts]. *)
Definition parse_opt (options_dict : gmap string pyval) (opt arg : string)
    : M (gmap string pyval) :=
  if is_opt opt "-h" "--help" then
    print usage_str;; sys_exit None
  else if is_opt opt "-f" "--fantasy-platform" then
    mret (<["platform" := PyStr arg]> options_dict)
  else if is_opt opt "-l" "--league-id" then
    mret (<["league_id" := PyStr arg]> options_dict)
  else if is_opt opt "-w" "--week" then
    n ← int_of arg;
    if (n <? 1)%Z || (n >? 17)%Z then
      print (nl +:+ "Please select a valid week number from 1 to 17.");;
      week ← select_week;
      mret (<["week" := week]> options_dict)
    else mret (<["week" := PyStr arg]> options_dict)
  else if is_opt opt "-g" "--game-id" then
    mret (<["game_id" := PyStr arg]> options_dict)
  else if is_opt opt "-y" "--year" then
    mret (<["year" := PyStr arg]> options_dict)
  else if is_opt opt "-s" "--save-data" then
    mret (<["save_data" := PyBool true]> options_dict)
  else if is_opt opt "-r" "--refresh-web-data" then
    mret (<["refresh_web_data" := PyBool true]> options_dict)
  else if is_opt opt "-p" "--playoff-prob-sims" then
    mret (<["playoff_prob_sims" := PyStr arg]> options_dict)
  else if is_opt opt "-b" "--break-ties" then
    mret (<["break_ties" := PyBool true]> options_dict)
  else if is_opt opt "-q" "--disqualify-ce" then
    mret (<["dq_ce" := PyBool true]> options_dict)
  else if is_opt opt "-t" "--test" then
    mret (<["test" := PyBool true]> options_dict)
  else if is_opt opt "-d" "--dev-offline" then
    mret (<["dev_offline" := PyBool true]> options_dict)
  else mret options_dict.

Fixpoint parse_opts (opts : list (string * string)) (options_dict : gmap string pyval)
    : M (gmap string pyval) :=
  match opts with
  | [] => mret options_dict
  | (opt, arg) :: opts =>
      options_dict ← parse_opt options_dict opt arg;
      parse_opts opts options_dict
  end.

(** The first half of [main]: the scan of [requirements.txt], given its
    lines. *)
Definition preflight (requirements : list string) : M unit :=
  let dependencies := dependencies_of requirements in
  missing_dependency_count ← check_dependencies dependencies 0;
  if (0 <? missing_dependency_count)%nat then
    log ERROR (missing_summary missing_dependency_count);; sys_exit None
  else mret tt.

(** The second half of [main]: [getopt] and the loop over the options. *)
Definition parse_args (argv : list string) : M (gmap string pyval) :=
  opts ← match getopt argv "hf:l:w:g:y:srp:bqtd" with
         | Some (opts, args) => mret opts
         | None => print usage_str;; sys_exit (Some 2%Z)
         end;
  parse_opts opts ∅.

(** [main(argv)] *)
Definition main (requirements : list string) (argv : list string) : M (gmap string pyval) :=
  preflight requirements;;
  parse_args argv.

(** ** The module-level check of [config.ini] *)

Definition config_available_msg : string :=
  "Configuration file " +:+ dquote +:+ "config.ini" +:+ dquote
    +:+ " available. Running Fantasy Football Metrics Weekly Report app...".

Definition config_no_access_msg : string :=
  "Unable to access configuration file " +:+ dquote +:+ "config.ini" +:+ dquote
    +:+ ". Please check that file permissions are properly set.".

Definition config_not_found_msg : string :=
  "Configuration file " +:+ dquote +:+ "config.ini" +:+ dquote
    +:+ " not found. Please make sure that it exists in project root directory.".

Definition config_check (w : world) : M unit :=
  if config_isfile w then
    if config_access w then log DEBUG config_available_msg
    else
      log ERROR config_no_access_msg;;
      sys_exit None
  else
    log ERROR config_not_found_msg;;
    sys_exit None.

(** ** The [__main__] block *)

Definition unsupported_slack_msg (post_or_file : string) : string :=
  "You have configured " +:+ dquote +:+ "config.ini" +:+ dquote
    +:+ " with unsupported Slack setting: post_or_file = " +:+ post_or_file +:+ ". "
    +:+ "Please choose " +:+ dquote +:+ "post" +:+ dquote +:+ " or " +:+ dquote +:+ "file"
    +:+ dquote +:+ " and try again.".

(** The upload to Google Drive: yields [upload_message]. *)
Definition upload_step (config : config_ini) (options : gmap string pyval)
    (report_pdf : string) : M string :=
  let upload_message := "" in
  if google_drive_upload config then
    if negb (truthy (get options "test" (PyBool false))) then
      google_drive_uploader ← (emit (EDriveUploader report_pdf);;
                               lift (GoogleDriveUploader report_pdf));
      upload_message ← (emit EDriveUpload;; lift (upload_file google_drive_uploader));
      log INFO upload_message;;
      mret upload_message
    else
      log INFO "Test report NOT uploaded to Google Drive.";;
      mret upload_message
  else mret upload_message.

(** The post to Slack. *)
Definition slack_step (config : config_ini) (options : gmap string pyval)
    (report_pdf upload_message : string) : M unit :=
  if post_to_slack config then
    if negb (truthy (get options "test" (PyBool false))) then
      slack_messenger ← (emit ESlackMessenger;; lift SlackMessenger);
      let post_or_file := post_or_file config in
      slack_response ←
        (if String.eqb post_or_file "post" then
           emit (ESlackPost upload_message);;
           lift (post_to_selected_slack_channel slack_messenger upload_message)
         else if String.eqb post_or_file "file" then
           emit (ESlackFile report_pdf);;
           lift (upload_file_to_selected_slack_channel slack_messenger report_pdf)
         else
           log WARNING (unsupported_slack_msg post_or_file);;
           sys_exit None);
      if ok slack_response then
        log INFO ("Report " +:+ report_pdf +:+ " successfully posted to Slack!")
      else
        log ERROR ("Report " +:+ report_pdf +:+ " was NOT posted to Slack with error: "
                   +:+ error slack_response)
    else log INFO "Test report NOT posted to Slack."
  else mret tt.

(** What follows [report_pdf = report.create_pdf_report()]. *)
Definition distribute (config : config_ini) (options : gmap string pyval)
    (report_pdf : string) : M unit :=
  upload_message ← upload_step config options report_pdf;
  slack_step config options report_pdf upload_message.

(** [report.create_pdf_report()]; [None] has no such method. *)
Definition create_pdf (report : option Report) : M string :=
  match report with
  | Some report => emit ECreatePdf;; lift (create_pdf_report report)
  | None => raise AttributeError
  end.

(** The block under [if __name__ == '__main__'], after [main] returned
    [options]. *)
Definition run_report (config : config_ini) (options : gmap string pyval) : M unit :=
  report ← select_league
              (get options "week" PyNone)
              (get options "platform" PyNone)
              (get options "league_id" PyNone)
              (get options "game_id" PyNone)
              (get options "year" PyNone)
              (get options "refresh_web_data" (PyBool false))
              (get options "playoff_prob_sims" PyNone)
              (get options "break_ties" (PyBool false))
              (get options "dq_ce" (PyBool false))
              (get options "save_data" (PyBool false))
              (get options "dev_offline" (PyBool false))
              (get options "test" (PyBool false));
  report_pdf ← create_pdf report;
  distribute config options report_pdf.

(** The script from start to end, run as the main module. *)
Definition script (w : world) : M unit :=
  config_check w;;
  options ← main (requirements_txt w) (argv w);
  run_report (config w) options.

End Script.

(** ** A sample installation, for the concrete runs *)

(** A builder that knows every league but the one numbered 999. *)
Definition sample_build (args : report_args) : outcome string :=
  match league_id args with
  | Some (PyStr id) =>
      if String.eqb id "999" then Raise IndexError else Ret ("league " +:+ id)
  | _ => Ret "default league"
  end.

Definition sample_require (dependency : string) : require_result :=
  if String.eqb dependency "docopt==0.6.2" then
    DistributionNotFound "The 'docopt==0.6.2' distribution was not found" "Traceback"
  else if String.eqb dependency "requests>=2.20" then
    VersionConflict "(requests 2.9.1, Requirement.parse('requests>=2.20'))" "Traceback"
  else Satisfied.

Definition sample : Collaborators := {|
  Report := string;
  Uploader := string;
  Messenger := unit;
  require := sample_require;
  FantasyFootballReport := sample_build;
  create_pdf_report := fun _ => Ret "report.pdf";
  GoogleDriveUploader := fun report_pdf => Ret report_pdf;
  upload_file := fun _ => Ret "https://drive.google.com/report";
  SlackMessenger := Ret tt;
  post_to_selected_slack_channel := fun _ _ => Ret {| ok := true; error := "" |};
  upload_file_to_selected_slack_channel := fun _ _ => Ret {| ok := true; error := "" |}
|}.

(** The same installation with Google Drive out of reach. *)
Definition drive_down : Collaborators := {|
  Report := string;
  Uploader := string;
  Messenger := unit;
  require := sample_require;
  FantasyFootballReport := sample_build;
  create_pdf_report := fun _ => Ret "report.pdf";
  GoogleDriveUploader := fun report_pdf => Ret report_pdf;
  upload_file := fun _ => Raise (OtherError "HttpError");
  SlackMessenger := Ret tt;
  post_to_selected_slack_channel := fun _ _ => Ret {| ok := true; error := "" |};
  upload_file_to_selected_slack_channel := fun _ _ => Ret {| ok := true; error := "" |}
|}.

(** A [requirements.txt] of which two lines cannot be satisfied. *)
Definition sample_requirements : list string :=
  ["# dependencies" +:+ nl; "docopt==0.6.2" +:+ nl; "requests>=2.20" +:+ nl; "six" +:+ nl].

Definition sample_config (upload slack : bool) (mode : string) : config_ini :=
  {| google_drive_upload := upload; post_to_slack := slack; post_or_file := mode |}.

(** A start with [config.ini] in place and nothing to distribute. *)
Definition sample_world (requirements argv : list string) : world :=
  {| config_isfile := true;
     config_access := true;
     config := sample_config false false "post";
     requirements_txt := requirements;
     argv := argv |}.

(** ** Vocabulary of the statements *)

(** A week the report builder may be given: [None] (the default week) or a
    string that [int] reads as a number from 1 to 17. *)
Definition week_ok (v : pyval) : Prop :=
  v = PyNone \/ exists s n, v = PyStr s /\ int s = Some n /\ (1 <= n <= 17)%Z.

(** Every call of the report builder is given such a week. *)
Definition build_week_ok (e : event) : Prop :=
  match e with
  | EBuild args => week_ok (week_for_report args)
  | _ => True
  end.

(** Calls into the two distribution sinks. *)
Definition is_sink_call (e : event) : bool :=
  match e with
  | EDriveUploader _ | EDriveUpload | ESlackMessenger | ESlackPost _ | ESlackFile _ => true
  | _ => false
  end.

(** Events of the operator's console: prompts and printed lines. *)
Definition is_console (e : event) : bool :=
  match e with
  | EInput _ | EPrint _ => true
  | _ => false
  end.

(** The prompts and printed lines of [select_week]. *)
Definition is_week_dialogue (e : event) : bool :=
  match e with
  | EInput prompt =>
      String.eqb prompt "Generate report for default week? (y/n) -> "
      || String.eqb prompt "For which week would you like to generate a report? (1 - 17) -> "
  | EPrint text =>
      String.eqb text "Please select a valid week number between 1 and 17."
      || String.eqb text "You must select either 'y' or 'n'."
  | _ => false
  end.

(** The keyword arguments the [__main__] block makes [select_league] pass
    to the builder, for a resolved week and league ID. *)
Definition keywords (options : gmap string pyval) (week : pyval) (league : option pyval)
    : report_args :=
  {| week_for_report := week;
     platform := get options "platform" PyNone;
     league_id := league;
     game_id := get options "game_id" PyNone;
     season := get options "year" PyNone;
     refresh_web_data := get options "refresh_web_data" (PyBool false);
     playoff_prob_sims := get options "playoff_prob_sims" PyNone;
     break_ties := get options "break_ties" (PyBool false);
     dq_ce := get options "dq_ce" (PyBool false);
     save_data := get options "save_data" (PyBool false);
     dev_offline := get options "dev_offline" (PyBool false);
     test := get options "test" (PyBool false) |}.

(** A dependency that [pkg_resources.require] reports as not found or as
    in conflict. *)
Definition unsatisfiable `{C : Collaborators} (dependency : string) : bool :=
  match require dependency with
  | DistributionNotFound _ _ | VersionConflict _ _ => true
  | _ => false
  end.

(** The two log entries of an unsatisfiable dependency: the exception with
    its traceback, and the install command the operator should run, with
    the bare package name when nothing was found and with the whole
    requirement when the installed version conflicts. *)
Definition remediation `{C : Collaborators} (dependency : string) : list event :=
  match require dependency with
  | DistributionNotFound dnfe tb =>
      [ELog ERROR ("Error: " +:+ dnfe +:+ nl +:+ tb);
       ELog ERROR (missing_dependency_msg dependency (first_word dependency))]
  | VersionConflict vce tb =>
      [ELog ERROR ("Error: " +:+ vce +:+ nl +:+ tb);
       ELog ERROR (missing_dependency_msg dependency dependency)]
  | _ => []
  end.

(** The events of [m] put after [evs]. *)
Definition after {A} (evs : list event) (r : outcome A * list string * list event)
    : outcome A * list string * list event :=
  (outcome_of r, unread_of r, evs ++ events_of r).

(** What the sample runs pass to the builder: week 5 and defaults. *)
Definition sample_args (league : option pyval) : report_args :=
  keywords (<["week" := PyStr "5"]> ∅) (PyStr "5") league.

(** [emits Pe Q m]: whatever is left on standard input, every event of [m]
    satisfies [Pe], and a value [m] returns satisfies [Q]. *)
Definition emits {A} (Pe : event -> Prop) (Q : A -> Prop) (m : M A) : Prop :=
  forall stdin,
    Forall Pe (events_of (m stdin)) /\
    match outcome_of (m stdin) with
    | Ret a => Q a
    | _ => True
    end.

(** [reads m]: [m] hands back what it has not read of standard input, never
    more. *)
Definition reads {A} (m : M A) : Prop :=
  forall stdin, length (unread_of (m stdin)) <= length stdin.

(** The options that take no value: short form, long form, and the key
    each sets to [True]. *)
Definition flag_options : list (string * string * string) :=
  [("-s", "--save-data", "save_data");
   ("-r", "--refresh-web-data", "refresh_web_data");
   ("-b", "--break-ties", "break_ties");
   ("-q", "--disqualify-ce", "dq_ce");
   ("-t", "--test", "test");
   ("-d", "--dev-offline", "dev_offline")].

(** The options whose value is stored as it is, with their key. *)
Definition value_options : list (string * string * string) :=
  [("-f", "--fantasy-platform", "platform");
   ("-l", "--league-id", "league_id");
   ("-g", "--game-id", "game_id");
   ("-y", "--year", "year");
   ("-p", "--playoff-prob-sims", "playoff_prob_sims")].

(** [keeps m]: [m] reads nothing from standard input. *)
Definition keeps {A} (m : M A) : Prop :=
  forall stdin, unread_of (m stdin) = stdin.

(** The sample installation with a line of [requirements.txt] that
    [pkg_resources] cannot parse. *)
Definition unparsable_requirement : Collaborators := {|
  Report := string;
  Uploader := string;
  Messenger := unit;
  require := fun dependency =>
    if String.eqb dependency "-e ." then RequireRaises (OtherError "RequirementParseError")
    else sample_require dependency;
  FantasyFootballReport := sample_build;
  create_pdf_report := fun _ => Ret "report.pdf";
  GoogleDriveUploader := fun report_pdf => Ret report_pdf;
  upload_file := fun _ => Ret "https://drive.google.com/report";
  SlackMessenger := Ret tt;
  post_to_selected_slack_channel := fun _ _ => Ret {| ok := true; error := "" |};
  upload_file_to_selected_slack_channel :=
    fun _ _ => Ret {| ok := false; error := "channel_not_found" |}
|}.

(** * Properties *)

(** ** Running the monad *)

Lemma bind_run {A B} (m : M A) (f : A -> M B) (stdin : list string) :
  (m ≫= f) stdin =
  match m stdin with
  | (Ret a, stdin', evs) =>
      match f a stdin' with
      | (r, stdin'', evs') => (r, stdin'', evs ++ evs')
      end
  | (Raise e, stdin', evs) => (Raise e, stdin', evs)
  | (Exit c, stdin', evs) => (Exit c, stdin', evs)
  end.
Proof. reflexivity. Qed.

Lemma emits_ret {A} (Pe : event -> Prop) (Q : A -> Prop) (a : A) :
  Q a -> emits Pe Q (mret a).
Proof. intros Ha stdin. split; [constructor | exact Ha]. Qed.

Lemma emits_bind {A B} (Pe : event -> Prop) (Q1 : A -> Prop) (Q2 : B -> Prop)
    (m : M A) (f : A -> M B) :
  emits Pe Q1 m -> (forall a, Q1 a -> emits Pe Q2 (f a)) -> emits Pe Q2 (m ≫= f).
Proof.
  intros Hm Hf stdin. rewrite bind_run.
  specialize (Hm stdin). destruct (m stdin) as [[[a | e | c] stdin'] evs]; cbn in Hm |- *.
  - destruct Hm as [Hevs Ha]. specialize (Hf a Ha stdin').
    destruct (f a stdin') as [[r stdin''] evs']. cbn in Hf |- *.
    destruct Hf as [Hevs' Hr]. split; [apply Forall_app; split; assumption | exact Hr].
  - split; [apply Hm | exact I].
  - split; [apply Hm | exact I].
Qed.

Lemma emits_emit (Pe : event -> Prop) (Q : unit -> Prop) (e : event) :
  Pe e -> Q tt -> emits Pe Q (emit e).
Proof. intros He Hq stdin. split; [repeat constructor; exact He | exact Hq]. Qed.

Lemma emits_input (Pe : event -> Prop) (Q : string -> Prop) (prompt : string) :
  Pe (EInput prompt) -> (forall answer, Q answer) -> emits Pe Q (input prompt).
Proof.
  intros He Hq [| answer stdin]; cbn; (split; [repeat constructor; exact He |]);
    [exact I | apply Hq].
Qed.

Lemma emits_raise {A} (Pe : event -> Prop) (Q : A -> Prop) (e : exn) :
  emits Pe Q (raise e).
Proof. intros stdin. split; [constructor | exact I]. Qed.

Lemma emits_exit {A} (Pe : event -> Prop) (Q : A -> Prop) (status : option Z) :
  emits Pe Q (sys_exit status).
Proof. intros stdin. split; [constructor | exact I]. Qed.

Lemma emits_lift {A} (Pe : event -> Prop) (Q : A -> Prop) (o : outcome A) :
  (forall a, o = Ret a -> Q a) -> emits Pe Q (lift o).
Proof.
  intros Hq stdin. split; [constructor |]. cbn. destruct o; auto.
Qed.

Lemma emits_try {A} (Pe : event -> Prop) (Q : A -> Prop) (body handler : M A) :
  emits Pe Q body -> emits Pe Q handler -> emits Pe Q (try_except_IndexError body handler).
Proof.
  intros Hb Hh stdin. unfold try_except_IndexError.
  specialize (Hb stdin). destruct (body stdin) as [[[a | e | c] stdin'] evs]; try exact Hb.
  destruct e; try exact Hb.
  specialize (Hh stdin'). destruct (handler stdin') as [[r stdin''] evs'].
  cbn in Hb, Hh |- *. split; [apply Forall_app; split; [apply Hb | apply Hh] | apply Hh].
Qed.

Lemma emits_weaken {A} (Pe : event -> Prop) (Q Q' : A -> Prop) (m : M A) :
  emits Pe Q m -> (forall a, Q a -> Q' a) -> emits Pe Q' m.
Proof.
  intros Hm Hq stdin. specialize (Hm stdin). destruct Hm as [Hevs Hr].
  split; [exact Hevs |]. destruct (outcome_of (m stdin)); auto.
Qed.

Lemma emits_impl {A} (Pe Pe' : event -> Prop) (Q : A -> Prop) (m : M A) :
  (forall e, Pe e -> Pe' e) -> emits Pe Q m -> emits Pe' Q m.
Proof.
  intros Himp Hm stdin. specialize (Hm stdin). destruct Hm as [Hevs Hr].
  split; [eapply Forall_impl; eassumption | exact Hr].
Qed.

(** One step through a sequence whose first action establishes nothing. *)
Ltac emits_seq :=
  eapply emits_bind;
  [ first [ apply emits_emit with (Q := fun _ => True)
          | apply emits_input with (Q := fun _ => True) ];
    first [ exact I | reflexivity | solve [auto] ]
  | intros ? _ ].

Lemma bind_outcome {A B} (m : M A) (f : A -> M B) (stdin : list string) :
  outcome_of ((m ≫= f) stdin) =
  match m stdin with
  | (Ret a, stdin', _) => outcome_of (f a stdin')
  | (Raise e, _, _) => Raise e
  | (Exit c, _, _) => Exit c
  end.
Proof.
  rewrite bind_run. destruct (m stdin) as [[[a | e | c] stdin'] evs]; try reflexivity.
  destruct (f a stdin') as [[r stdin''] evs']. reflexivity.
Qed.

(** Run the actions at the head of a sequence. *)
Ltac run :=
  repeat first
    [ rewrite bind_run
    | progress cbn [input print log emit lift raise sys_exit mret M_mret M_ret app] ].

(** Two continuations that agree wherever the first action can lead. *)
Lemma bind_cong {A B} (m : M A) (f g : A -> M B) (stdin : list string) :
  (forall a stdin' evs, m stdin = (Ret a, stdin', evs) -> f a stdin' = g a stdin') ->
  (m ≫= f) stdin = (m ≫= g) stdin.
Proof.
  intros Hfg. rewrite !bind_run.
  destruct (m stdin) as [[[a | e | c] stdin'] evs]; try reflexivity.
  rewrite (Hfg a stdin' evs); reflexivity.
Qed.

Lemma try_cong {A} (body h1 h2 : M A) (stdin : list string) :
  (forall stdin' evs, body stdin = (Raise IndexError, stdin', evs) -> h1 stdin' = h2 stdin') ->
  try_except_IndexError body h1 stdin = try_except_IndexError body h2 stdin.
Proof.
  intros Hh. unfold try_except_IndexError.
  destruct (body stdin) as [[[a | e | c] stdin'] evs]; try reflexivity.
  destruct e; try reflexivity. rewrite (Hh stdin' evs); reflexivity.
Qed.

Lemma input_inv (prompt answer : string) (stdin stdin' : list string) (evs : list event) :
  input prompt stdin = (Ret answer, stdin', evs) -> stdin = answer :: stdin'.
Proof. destruct stdin; cbn; intros H; inversion H; reflexivity. Qed.

Lemma reads_bind {A B} (m : M A) (f : A -> M B) :
  reads m -> (forall a, reads (f a)) -> reads (m ≫= f).
Proof.
  intros Hm Hf stdin. rewrite bind_run. specialize (Hm stdin).
  destruct (m stdin) as [[[a | e | c] stdin'] evs]; cbn in Hm |- *; try exact Hm.
  specialize (Hf a stdin'). destruct (f a stdin') as [[r stdin''] evs'].
  cbn in Hf |- *. lia.
Qed.

Lemma reads_keep {A} (m : M A) :
  (forall stdin, unread_of (m stdin) = stdin) -> reads m.
Proof. intros H stdin. rewrite H. reflexivity. Qed.

Lemma reads_input (prompt : string) : reads (input prompt).
Proof. intros [| answer stdin]; cbn; lia. Qed.

Ltac reads_step :=
  first [ apply reads_input
        | apply reads_keep; reflexivity
        | apply reads_bind; [| intros ? ] ].

(** ** [getopt]: the bound on the rounds *)

Lemma do_shorts_length (optstring shortopts : string) :
  forall (opts opts' : list (string * string)) (args args' : list string),
    do_shorts opts optstring shortopts args = Some (opts', args') ->
    length args' <= length args.
Proof.
  induction optstring as [| opt optstring IH]; intros opts opts' args args' H;
    cbn [do_shorts] in H.
  - inversion H; subst. reflexivity.
  - destruct (short_has_arg opt shortopts) as [[|] |]; [| | discriminate].
    + destruct (String.eqb optstring "").
      * destruct args as [| optarg args]; [discriminate |].
        inversion H; subst. cbn. lia.
      * inversion H; subst. reflexivity.
    + apply IH in H. exact H.
Qed.

(** Rounds beyond the number of arguments change nothing. *)
Lemma getopt_loop_fuel (shortopts : string) (fuel1 : nat) :
  forall (fuel2 : nat) (opts : list (string * string)) (args : list string),
    length args <= fuel1 -> length args <= fuel2 ->
    getopt_loop fuel1 opts shortopts args = getopt_loop fuel2 opts shortopts args.
Proof.
  induction fuel1 as [| fuel1 IH]; intros fuel2 opts args H1 H2.
  - destruct args; [| cbn in H1; lia]. destruct fuel2; reflexivity.
  - destruct args as [| a rest]; [destruct fuel2; reflexivity |].
    destruct fuel2 as [| fuel2]; [cbn in H2; lia |].
    cbn [getopt_loop length] in *.
    destruct (startswith "-" a && negb (String.eqb a "-")); [| reflexivity].
    destruct (String.eqb a "--"); [reflexivity |].
    destruct (startswith "--" a); [reflexivity |].
    destruct (do_shorts opts _ shortopts rest) as [[opts' args'] |] eqn:Hshorts;
      [| reflexivity].
    apply do_shorts_length in Hshorts. apply IH; lia.
Qed.

(** ** [select_week] *)

Lemma int_of_emits (Pe : event -> Prop) (s : string) :
  emits Pe (fun n => int s = Some n) (int_of s).
Proof.
  unfold int_of. destruct (int s) as [n |]; [apply emits_ret; reflexivity | apply emits_raise].
Qed.

(** Whatever the operator answers, [select_week] only prompts and prints,
    and a week it returns is [None] or a string that reads as a number from
    1 to 17. *)
Lemma select_week_rec_dialogue (fuel : nat) :
  emits (fun e => is_week_dialogue e = true) week_ok (select_week_rec fuel).
Proof.
  induction fuel as [| fuel IH]; cbn [select_week_rec].
  - apply emits_raise.
  - emits_seq.
    destruct (String.eqb _ "y"); [apply emits_ret; left; reflexivity |].
    destruct (String.eqb _ "n").
    + eapply emits_bind;
        [apply emits_input with (Q := fun _ => True); [reflexivity | auto] |].
      intros chosen_week _.
      eapply emits_bind; [apply int_of_emits |].
      intros n Hn. cbn beta in Hn.
      destruct ((0 <? n)%Z && (n <? 18)%Z) eqn:Hrange.
      * apply emits_ret. right. exists chosen_week, n.
        apply andb_true_iff in Hrange as [H0 H18].
        apply Z.ltb_lt in H0, H18. repeat split; [exact Hn | lia | lia].
      * emits_seq. eapply emits_bind; [exact IH |].
        intros _ _. apply emits_ret. left; reflexivity.
    + emits_seq. eapply emits_bind; [exact IH |].
      intros _ _. apply emits_ret. left; reflexivity.
Qed.

Lemma week_dialogue_console (e : event) : is_week_dialogue e = true -> is_console e = true.
Proof. destruct e; cbn; congruence. Qed.

Lemma select_week_rec_emits (Pe : event -> Prop) (fuel : nat) :
  (forall e, is_console e = true -> Pe e) -> emits Pe week_ok (select_week_rec fuel).
Proof.
  intros Hc. eapply emits_impl; [| apply select_week_rec_dialogue].
  intros e He. apply Hc, week_dialogue_console, He.
Qed.

Lemma select_week_dialogue :
  emits (fun e => is_week_dialogue e = true) week_ok select_week.
Proof. intros stdin. unfold select_week. apply select_week_rec_dialogue. Qed.

Lemma select_week_rec_reads (fuel : nat) : reads (select_week_rec fuel).
Proof.
  induction fuel as [| fuel IH]; cbn [select_week_rec]; [reads_step |].
  reads_step; [reads_step |].
  destruct (String.eqb _ "y"); [reads_step |].
  destruct (String.eqb _ "n").
  - reads_step; [reads_step |]. reads_step.
    { unfold int_of. destruct (int _); reads_step. }
    destruct (_ && _); [reads_step |].
    reads_step; [reads_step |]. reads_step; [exact IH | reads_step].
  - reads_step; [reads_step |]. reads_step; [exact IH | reads_step].
Qed.

(** Frames beyond one more than the number of answers change nothing. *)
Lemma select_week_rec_fuel (fuel1 : nat) :
  forall (fuel2 : nat) (stdin : list string),
    length stdin < fuel1 -> length stdin < fuel2 ->
    select_week_rec fuel1 stdin = select_week_rec fuel2 stdin.
Proof.
  induction fuel1 as [| fuel1 IH]; intros fuel2 stdin H1 H2; [lia |].
  destruct fuel2 as [| fuel2]; [lia |].
  cbn [select_week_rec]. apply bind_cong. intros default stdin1 evs1 Hin.
  apply input_inv in Hin. subst stdin. cbn [length] in H1, H2.
  destruct (String.eqb default "y"); [reflexivity |].
  destruct (String.eqb default "n").
  - apply bind_cong. intros chosen_week stdin2 evs2 Hin.
    apply input_inv in Hin. subst stdin1. cbn [length] in H1, H2.
    apply bind_cong. intros n stdin3 evs3 Hint.
    assert (stdin3 = stdin2) as ->.
    { unfold int_of in Hint. destruct (int chosen_week); inversion Hint; reflexivity. }
    destruct (_ && _); [reflexivity |].
    apply bind_cong. intros [] stdin4 evs4 Hp. inversion Hp; subst.
    rewrite !bind_run. rewrite (IH fuel2) by lia. reflexivity.
  - apply bind_cong. intros [] stdin2 evs2 Hp. inversion Hp; subst.
    rewrite !bind_run. rewrite (IH fuel2) by lia. reflexivity.
Qed.

Lemma select_week_rec_enough (fuel : nat) (stdin : list string) :
  length stdin < fuel -> select_week_rec fuel stdin = select_week stdin.
Proof. intros H. unfold select_week. apply select_week_rec_fuel; lia. Qed.

Lemma select_week_reads : reads select_week.
Proof. intros stdin. unfold select_week. apply select_week_rec_reads. Qed.

(** [select_week] as the source reads, with the recursive calls folded
    back. *)
Lemma select_week_unfold (stdin : list string) :
  select_week stdin =
  (default ← input "Generate report for default week? (y/n) -> ";
   if String.eqb default "y" then mret PyNone
   else if String.eqb default "n" then
     chosen_week ← input "For which week would you like to generate a report? (1 - 17) -> ";
     n ← int_of chosen_week;
     if (0 <? n)%Z && (n <? 18)%Z then mret (PyStr chosen_week)
     else
       print "Please select a valid week number between 1 and 17.";;
       select_week;;
       mret PyNone
   else
     print "You must select either 'y' or 'n'.";;
     select_week;;
     mret PyNone) stdin.
Proof.
  unfold select_week at 1. cbn [select_week_rec].
  apply bind_cong. intros default stdin1 evs1 Hin.
  apply input_inv in Hin. subst stdin. cbn [length].
  destruct (String.eqb default "y"); [reflexivity |].
  destruct (String.eqb default "n").
  - apply bind_cong. intros chosen_week stdin2 evs2 Hin.
    apply input_inv in Hin. subst stdin1. cbn [length].
    apply bind_cong. intros n stdin3 evs3 Hint.
    assert (stdin3 = stdin2) as ->.
    { unfold int_of in Hint. destruct (int chosen_week); inversion Hint; reflexivity. }
    destruct (_ && _); [reflexivity |].
    apply bind_cong. intros [] stdin4 evs4 Hp. inversion Hp; subst.
    rewrite !bind_run. rewrite select_week_rec_enough by lia. reflexivity.
  - apply bind_cong. intros [] stdin2 evs2 Hp. inversion Hp; subst.
    rewrite !bind_run. rewrite select_week_rec_enough by lia. reflexivity.
Qed.

(** The model never runs out of frames. *)
Lemma select_week_rec_no_RecursionError (fuel : nat) :
  forall stdin, length stdin < fuel ->
    outcome_of (select_week_rec fuel stdin) <> Raise RecursionError.
Proof.
  induction fuel as [| fuel IH]; intros stdin Hlen; [lia |].
  cbn [select_week_rec]. rewrite bind_outcome.
  destruct stdin as [| default stdin]; [intros [=] |]. cbn [input length] in *.
  assert (Hrec : forall text,
    outcome_of ((print text;; select_week_rec fuel;; mret PyNone) stdin)
    <> Raise RecursionError).
  { intros text. rewrite bind_outcome. cbn [print emit]. rewrite bind_outcome.
    specialize (IH stdin ltac:(lia)).
    destruct (select_week_rec fuel stdin) as [[[a | e | c] stdin'] evs]; cbn in IH |- *;
      [intros [=] | exact IH | intros [=]]. }
  destruct (String.eqb default "y"); [intros [=] |].
  destruct (String.eqb default "n"); [| apply Hrec].
  rewrite bind_outcome. destruct stdin as [| chosen_week stdin]; [intros [=] |].
  cbn [input length] in *. rewrite bind_outcome. unfold int_of.
  destruct (int chosen_week) as [n |]; [| intros [=]]. cbn [mret M_mret M_ret].
  destruct (_ && _); [intros [=] |].
  rewrite bind_outcome. cbn [print emit]. rewrite bind_outcome.
  specialize (IH stdin ltac:(lia)).
  destruct (select_week_rec fuel stdin) as [[[a | e | c] stdin'] evs]; cbn in IH |- *;
    [intros [=] | exact IH | intros [=]].
Qed.

Lemma select_week_emits (Pe : event -> Prop) :
  (forall e, is_console e = true -> Pe e) -> emits Pe week_ok select_week.
Proof.
  intros Hc stdin. unfold select_week. apply (select_week_rec_emits Pe _ Hc).
Qed.

(** After an answer that is neither "y" nor "n", [select_week] asks again
    and returns [None] whatever the retry returned. *)
Lemma select_week_after_invalid (default : string) (stdin : list string) :
  String.eqb default "y" = false -> String.eqb default "n" = false ->
  select_week (default :: stdin) =
  match select_week stdin with
  | (r, rest, evs) =>
      (match r with Ret _ => Ret PyNone | Raise e => Raise e | Exit c => Exit c end,
       rest,
       [EInput "Generate report for default week? (y/n) -> ";
        EPrint "You must select either 'y' or 'n'."] ++ evs)
  end.
Proof.
  intros Hy Hn. rewrite select_week_unfold. run. rewrite Hy, Hn. run.
  destruct (select_week stdin) as [[[a | e | c] rest] evs]; run;
    rewrite ?app_nil_r; reflexivity.
Qed.

(** ** [select_league]: frames *)

Section LeagueFrames.
Context `{C : Collaborators}.
Variables (week' platform' game_id' season' refresh_web_data' playoff_prob_sims'
             break_ties' dq_ce' save_data' dev_offline' test' : pyval).

Lemma resolve_week_reads (wk : pyval) : reads (resolve_week wk).
Proof.
  unfold resolve_week. destruct (negb _); [apply select_week_reads | reads_step].
Qed.

Lemma build_reads (args : report_args) : reads (build args).
Proof. unfold build. reads_step; reads_step. Qed.

Lemma build_then_some_reads (args : report_args) :
  reads (report ← build args; mret (Some report)).
Proof. reads_step; [apply build_reads | reads_step]. Qed.

Lemma select_league_rec_fuel (fuel1 : nat) :
  forall (fuel2 : nat) (league_id : pyval) (stdin : list string),
    length stdin < fuel1 -> length stdin < fuel2 ->
    select_league_rec fuel1 week' platform' league_id game_id' season' refresh_web_data'
      playoff_prob_sims' break_ties' dq_ce' save_data' dev_offline' test' stdin =
    select_league_rec fuel2 week' platform' league_id game_id' season' refresh_web_data'
      playoff_prob_sims' break_ties' dq_ce' save_data' dev_offline' test' stdin.
Proof.
  induction fuel1 as [| fuel1 IH]; intros fuel2 league_id stdin H1 H2; [lia |].
  destruct fuel2 as [| fuel2]; [lia |].
  cbn [select_league_rec]. apply bind_cong. intros default stdin1 evs1 Hd.
  destruct (String.eqb default "y"); [reflexivity |].
  destruct (String.eqb default "n") eqn:Hn.
  - assert (Hlen : length stdin1 < length stdin).
    { destruct (negb (truthy league_id)).
      - apply input_inv in Hd. subst stdin. cbn. lia.
      - inversion Hd; subst default. discriminate Hn. }
    apply bind_cong. intros id stdin2 evs2 Hin. apply input_inv in Hin. subst stdin1.
    cbn [length] in Hlen.
    apply bind_cong. intros wk stdin3 evs3 Hwk.
    pose proof (resolve_week_reads week' stdin2) as Hr. rewrite Hwk in Hr. cbn in Hr.
    apply try_cong. intros stdin4 evs4 Hb.
    match type of Hb with ?body stdin3 = _ =>
      pose proof (build_then_some_reads _ stdin3 : length (unread_of (body stdin3)) <= _) as Hr'
    end.
    rewrite Hb in Hr'. cbn in Hr'.
    apply bind_cong. intros [] stdin5 evs5 Hp. inversion Hp; subst.
    rewrite !bind_run. rewrite (IH fuel2) by lia. reflexivity.
  - destruct (String.eqb default "selected") eqn:Hs; [reflexivity |].
    assert (Hlen : length stdin1 < length stdin).
    { destruct (negb (truthy league_id)).
      - apply input_inv in Hd. subst stdin. cbn. lia.
      - inversion Hd; subst default. discriminate Hs. }
    apply bind_cong. intros [] stdin2 evs2 Hp. inversion Hp; subst.
    rewrite !bind_run. rewrite (IH fuel2) by lia. reflexivity.
Qed.

Lemma select_league_rec_enough (fuel : nat) (league_id : pyval) (stdin : list string) :
  length stdin < fuel ->
  select_league_rec fuel week' platform' league_id game_id' season' refresh_web_data'
    playoff_prob_sims' break_ties' dq_ce' save_data' dev_offline' test' stdin =
  select_league week' platform' league_id game_id' season' refresh_web_data'
    playoff_prob_sims' break_ties' dq_ce' save_data' dev_offline' test' stdin.
Proof. intros H. unfold select_league. apply select_league_rec_fuel; lia. Qed.

(** X9. When the builder rejects a league ID typed at the prompt, the
    resolution starts over with no league ID; what the second round returns
    is not returned to the caller, who gets [None]. *)
Lemma select_league_rejected_id (id : string) (stdin : list string) :
  truthy week' = true ->
  FantasyFootballReport
    {| week_for_report := week'; platform := platform'; league_id := Some (PyStr id);
       game_id := game_id'; season := season'; refresh_web_data := refresh_web_data';
       playoff_prob_sims := playoff_prob_sims'; break_ties := break_ties'; dq_ce := dq_ce';
       save_data := save_data'; dev_offline := dev_offline'; test := test' |}
    = Raise IndexError ->
  select_league week' platform' PyNone game_id' season' refresh_web_data'
    playoff_prob_sims' break_ties' dq_ce' save_data' dev_offline' test' ("n" :: id :: stdin) =
  match select_league week' platform' PyNone game_id' season' refresh_web_data'
          playoff_prob_sims' break_ties' dq_ce' save_data' dev_offline' test' stdin with
  | (r, rest, evs) =>
      (match r with Ret _ => Ret None | Raise e => Raise e | Exit c => Exit c end,
       rest,
       [EInput "Generate report for default league? (y/n) -> ";
        EInput "What is the league ID of the league for which you want to generate a report? -> ";
        EBuild {| week_for_report := week'; platform := platform';
                  league_id := Some (PyStr id);
                  game_id := game_id'; season := season';
                  refresh_web_data := refresh_web_data';
                  playoff_prob_sims := playoff_prob_sims'; break_ties := break_ties';
                  dq_ce := dq_ce'; save_data := save_data'; dev_offline := dev_offline';
                  test := test' |};
        EPrint "The league ID you have selected is not valid."] ++ evs)
  end.
Proof.
  intros Hweek Hreject. unfold select_league at 1. cbn [length].
  remember (S (S (length stdin))) as fuel eqn:Hfuel. cbn [select_league_rec].
  cbn [truthy negb]. run. cbn [String.eqb Ascii.eqb Bool.eqb]. run.
  unfold resolve_week at 1. rewrite Hweek. cbn [negb]. run.
  unfold try_except_IndexError, build. run. rewrite Hreject. run.
  rewrite select_league_rec_enough by (subst fuel; lia).
  destruct (select_league _ _ _ _ _ _ _ _ _ _ _ _ stdin) as [[[a | e | c] rest] evs];
    run; rewrite ?app_nil_r; reflexivity.
Qed.

End LeagueFrames.

(** ** The week in [options_dict] and in the calls of the builder *)

Section WeekInvariant.
Context `{C : Collaborators}.

Lemma get_insert_ne (options : gmap string pyval) (k k' : string) (v d : pyval) :
  k <> k' -> get (<[k := v]> options) k' d = get options k' d.
Proof. intros Hne. unfold get. rewrite lookup_insert_ne; [reflexivity | exact Hne]. Qed.

Lemma get_insert_eq (options : gmap string pyval) (k : string) (v d : pyval) :
  get (<[k := v]> options) k d = v.
Proof. unfold get. rewrite lookup_insert_eq. reflexivity. Qed.

Lemma parse_opt_week (Pe : event -> Prop) (options_dict : gmap string pyval)
    (opt arg : string) :
  (forall e, is_console e = true -> Pe e) ->
  week_ok (get options_dict "week" PyNone) ->
  emits Pe (fun d => week_ok (get d "week" PyNone)) (parse_opt options_dict opt arg).
Proof.
  intros Hc Hinv. unfold parse_opt.
  repeat match goal with
  | |- emits _ _ (if is_opt ?o ?a ?b then _ else _) => destruct (is_opt o a b)
  end;
  try (apply emits_ret; rewrite get_insert_ne by discriminate; exact Hinv).
  - emits_seq. apply emits_exit.
  - eapply emits_bind; [apply int_of_emits |].
    intros n Hn. cbn beta in Hn.
    destruct ((n <? 1)%Z || (n >? 17)%Z) eqn:Hrange.
    + emits_seq. eapply emits_bind; [apply select_week_emits; exact Hc |].
      intros week Hweek. apply emits_ret. rewrite get_insert_eq. exact Hweek.
    + apply emits_ret. rewrite get_insert_eq. right. exists arg, n.
      apply orb_false_iff in Hrange as [H1 H17].
      apply Z.ltb_ge in H1. rewrite Z.gtb_ltb in H17. apply Z.ltb_ge in H17.
      repeat split; [exact Hn | lia | lia].
  - apply emits_ret. exact Hinv.
Qed.

Lemma parse_opts_week (Pe : event -> Prop) (opts : list (string * string)) :
  (forall e, is_console e = true -> Pe e) ->
  forall options_dict : gmap string pyval,
    week_ok (get options_dict "week" PyNone) ->
    emits Pe (fun d => week_ok (get d "week" PyNone)) (parse_opts opts options_dict).
Proof.
  intros Hc. induction opts as [| [opt arg] opts IH]; intros options_dict Hinv; cbn [parse_opts].
  - apply emits_ret. exact Hinv.
  - eapply emits_bind; [apply parse_opt_week; assumption |].
    intros d Hd. apply IH. exact Hd.
Qed.

Lemma check_dependencies_emits (Pe : event -> Prop) (dependencies : list string) :
  (forall lvl msg, Pe (ELog lvl msg)) ->
  forall count, emits Pe (fun _ => True) (check_dependencies dependencies count).
Proof.
  intros Hl. induction dependencies as [| dependency dependencies IH]; intros count;
    cbn [check_dependencies].
  - apply emits_ret. exact I.
  - eapply emits_bind with (Q1 := fun _ => True); [| intros; apply IH].
    destruct (require dependency).
    + apply emits_ret; exact I.
    + emits_seq. emits_seq. apply emits_ret; exact I.
    + emits_seq. emits_seq. apply emits_ret; exact I.
    + apply emits_raise.
Qed.

Lemma main_week (Pe : event -> Prop) (requirements argv : list string) :
  (forall e, is_console e = true -> Pe e) ->
  (forall lvl msg, Pe (ELog lvl msg)) ->
  emits Pe (fun d => week_ok (get d "week" PyNone)) (main requirements argv).
Proof.
  intros Hc Hl. unfold main, preflight, parse_args.
  eapply emits_bind with (Q1 := fun _ => True).
  { eapply emits_bind; [apply check_dependencies_emits; exact Hl |].
    intros count _.
    destruct (0 <? count)%nat; [emits_seq; apply emits_exit | apply emits_ret; exact I]. }
  intros _ _.
  eapply emits_bind with (Q1 := fun _ => True).
  { destruct (getopt argv _) as [[opts args] |];
      [apply emits_ret; exact I | emits_seq; apply emits_exit]. }
  intros opts _. apply parse_opts_week; [exact Hc | left; reflexivity].
Qed.

Lemma build_emits (Pe : event -> Prop) (args : report_args) :
  Pe (EBuild args) -> emits Pe (fun _ => True) (build args).
Proof.
  intros Hb. unfold build. emits_seq. apply emits_lift. auto.
Qed.

(** [select_league] prompts, prints and calls the builder, each time with
    the week it was given or with one that [select_week] returned; [W] is
    what is known of those weeks. *)
Section LeagueEvents.
Variables (Pe : event -> Prop) (W : pyval -> Prop).
Hypothesis Pe_console : forall e, is_console e = true -> Pe e.
Hypothesis Pe_build : forall args, W (week_for_report args) -> Pe (EBuild args).
Hypothesis W_week_ok : forall v, week_ok v -> W v.

Lemma resolve_week_emits (wk : pyval) : W wk -> emits Pe W (resolve_week wk).
Proof.
  intros Hweek. unfold resolve_week.
  destruct (negb (truthy wk)); [| apply emits_ret; exact Hweek].
  eapply emits_weaken; [apply select_week_emits; exact Pe_console | exact W_week_ok].
Qed.

Lemma select_league_rec_emits (fuel : nat)
    (week platform league_id game_id season refresh_web_data playoff_prob_sims
       break_ties dq_ce save_data dev_offline test : pyval) :
  W week ->
  emits Pe (fun _ => True)
    (select_league_rec fuel week platform league_id game_id season refresh_web_data
       playoff_prob_sims break_ties dq_ce save_data dev_offline test).
Proof.
  intros Hweek. revert league_id.
  induction fuel as [| fuel IH]; intros league_id; cbn [select_league_rec].
  - apply emits_raise.
  - eapply emits_bind with (Q1 := fun _ => True).
    { destruct (negb (truthy league_id));
        [apply emits_input; [apply Pe_console; reflexivity | auto] | apply emits_ret; exact I]. }
    intros default _.
    assert (Hbuild : forall l,
      emits Pe (fun _ : option Report => True)
        (week_for_report ← resolve_week week;
         report ← build {| week_for_report := week_for_report; platform := platform;
                           league_id := l; game_id := game_id; season := season;
                           refresh_web_data := refresh_web_data;
                           playoff_prob_sims := playoff_prob_sims;
                           break_ties := break_ties; dq_ce := dq_ce;
                           save_data := save_data; dev_offline := dev_offline;
                           test := test |};
         mret (Some report))).
    { intros l. eapply emits_bind; [apply resolve_week_emits; exact Hweek |].
      intros wk Hwk. eapply emits_bind; [apply build_emits, Pe_build; exact Hwk |].
      intros; apply emits_ret; exact I. }
    assert (Hretry : forall text,
      emits Pe (fun _ : option Report => True)
        (print text;;
         select_league_rec fuel week platform PyNone game_id season refresh_web_data
           playoff_prob_sims break_ties dq_ce save_data dev_offline test;;
         mret None)).
    { intros text. eapply emits_bind with (Q1 := fun _ => True).
      - apply emits_emit; [apply Pe_console; reflexivity | exact I].
      - intros _ _. eapply emits_bind; [apply IH |]. intros; apply emits_ret; exact I. }
    destruct (String.eqb default "y"); [apply Hbuild |].
    destruct (String.eqb default "n").
    + eapply emits_bind with (Q1 := fun _ => True);
        [apply emits_input; [apply Pe_console; reflexivity | auto] |].
      intros answer _.
      eapply emits_bind; [apply resolve_week_emits; exact Hweek |].
      intros wk Hwk. apply emits_try; [| apply Hretry].
      eapply emits_bind; [apply build_emits, Pe_build; exact Hwk |].
      intros; apply emits_ret; exact I.
    + destruct (String.eqb default "selected"); [apply Hbuild | apply Hretry].
Qed.

Lemma select_league_emits
    (week platform league_id game_id season refresh_web_data playoff_prob_sims
       break_ties dq_ce save_data dev_offline test : pyval) :
  W week ->
  emits Pe (fun _ => True)
    (select_league week platform league_id game_id season refresh_web_data
       playoff_prob_sims break_ties dq_ce save_data dev_offline test).
Proof.
  intros Hweek stdin. unfold select_league. apply select_league_rec_emits. exact Hweek.
Qed.

Lemma create_pdf_emits (report : option Report) :
  Pe ECreatePdf -> emits Pe (fun _ => True) (create_pdf report).
Proof.
  intros Hp. unfold create_pdf. destruct report as [report |]; [| apply emits_raise].
  eapply emits_bind with (Q1 := fun _ => True); [apply emits_emit; [exact Hp | exact I] |].
  intros; apply emits_lift; auto.
Qed.

End LeagueEvents.

Lemma distribute_emits (Pe : event -> Prop) (config : config_ini)
    (options : gmap string pyval) (report_pdf : string) :
  (forall e, (forall args, e <> EBuild args) -> Pe e) ->
  emits Pe (fun _ => True) (distribute config options report_pdf).
Proof.
  intros Hp.
  assert (Hemit : forall e, (forall args, e <> EBuild args) ->
            emits Pe (fun _ : unit => True) (emit e)).
  { intros e He. apply emits_emit; [apply Hp; exact He | exact I]. }
  assert (Hlift : forall A (o : outcome A), emits Pe (fun _ : A => True) (lift o)).
  { intros A o. apply emits_lift. auto. }
  unfold distribute, upload_step, slack_step, log.
  eapply emits_bind with (Q1 := fun _ => True).
  { destruct (google_drive_upload config); [| apply emits_ret; exact I].
    destruct (negb _).
    - eapply emits_bind with (Q1 := fun _ => True).
      { eapply emits_bind; [apply Hemit; discriminate | intros; apply Hlift]. }
      intros u _. eapply emits_bind with (Q1 := fun _ => True).
      { eapply emits_bind; [apply Hemit; discriminate | intros; apply Hlift]. }
      intros msg _. eapply emits_bind; [apply Hemit; discriminate |].
      intros; apply emits_ret; exact I.
    - eapply emits_bind; [apply Hemit; discriminate |].
      intros; apply emits_ret; exact I. }
  intros upload_message _.
  destruct (post_to_slack config); [| apply emits_ret; exact I].
  destruct (negb _); [| apply Hemit; discriminate].
  eapply emits_bind with (Q1 := fun _ => True).
  { eapply emits_bind; [apply Hemit; discriminate | intros; apply Hlift]. }
  intros m _. eapply emits_bind with (Q1 := fun _ => True).
  { destruct (String.eqb _ "post").
    - eapply emits_bind; [apply Hemit; discriminate | intros; apply Hlift].
    - destruct (String.eqb _ "file").
      + eapply emits_bind; [apply Hemit; discriminate | intros; apply Hlift].
      + eapply emits_bind; [apply Hemit; discriminate | intros; apply emits_exit]. }
  intros response _. destruct (ok response); apply Hemit; discriminate.
Qed.

Lemma run_report_week (config : config_ini) (options : gmap string pyval) :
  week_ok (get options "week" PyNone) ->
  emits build_week_ok (fun _ => True) (run_report config options).
Proof.
  intros Hweek. unfold run_report.
  eapply emits_bind with (Q1 := fun _ => True).
  { apply select_league_emits with (W := week_ok); auto.
    intros [] He; try discriminate; exact I. }
  intros report _. eapply emits_bind with (Q1 := fun _ => True).
  { apply create_pdf_emits. exact I. }
  intros report_pdf _. apply distribute_emits.
  intros [] He; try exact I. exfalso. eapply He. reflexivity.
Qed.

End WeekInvariant.

Section WeekReachingBuilder.
Context `{C : Collaborators}.

Lemma config_check_emits (Pe : event -> Prop) (w : world) :
  (forall lvl msg, Pe (ELog lvl msg)) -> emits Pe (fun _ => True) (config_check w).
Proof.
  intros Hl. unfold config_check, log.
  destruct (config_isfile w); [destruct (config_access w) |].
  - apply emits_emit; [apply Hl | exact I].
  - eapply emits_bind; [apply emits_emit with (Q := fun _ => True); [apply Hl | exact I] |].
    intros; apply emits_exit.
  - eapply emits_bind; [apply emits_emit with (Q := fun _ => True); [apply Hl | exact I] |].
    intros; apply emits_exit.
Qed.

(** C6. In every run, the week given to the report builder is [None] (use
    the default week) or a string that reads as an integer from 1 to 17,
    and so is the week [main] leaves in the options, whether it came from
    the command line or from the prompts. *)
Theorem C6_week_is_default_or_in_range (w : world) (stdin : list string) :
  Forall build_week_ok (events_of (script w stdin)) /\
  match outcome_of (main (requirements_txt w) (argv w) stdin) with
  | Ret options => week_ok (get options "week" PyNone)
  | _ => True
  end.
Proof.
  assert (Hconsole : forall e, is_console e = true -> build_week_ok e).
  { intros [] He; try discriminate; exact I. }
  assert (Hlog : forall lvl msg, build_week_ok (ELog lvl msg)) by (intros; exact I).
  split.
  - apply (emits_bind build_week_ok (fun _ => True) (fun _ => True)).
    + apply config_check_emits. exact Hlog.
    + intros _ _. eapply emits_bind; [apply main_week; assumption |].
      intros options Hweek. apply run_report_week. exact Hweek.
  - apply (main_week build_week_ok _ _ Hconsole Hlog).
Qed.

End WeekReachingBuilder.

(** ** The retry paths of the resolvers *)

Example int_examples :
  map int ["5"; " 5 "; "+5"; "-5"; "1_7"; "_5"; "5_"; "1__7"; "007"; ""; "+"; "5.0"; "0x5"; "+ 5"; "--5"; "0_0"]
  = [Some 5; Some 5; Some 5; Some (-5); Some 17; None; None; None; Some 7; None; None; None; None; None; None; Some 0]%Z.
Proof. reflexivity. Qed.

Example getopt_examples :
  map (fun args => getopt args "hf:l:w:g:y:srp:bqtd")
    [["-w"; "5"]; ["-w5"]; ["-tw"; "5"]; ["-w"]; ["--week"; "5"]; ["--"; "-w"]; ["x"; "-w"; "5"];
     ["-w"; "-t"]; ["-x"]]
  = [Some ([("-w", "5")], []); Some ([("-w", "5")], []); Some ([("-t", ""); ("-w", "5")], []);
     None; None; Some ([], ["-w"]); Some ([], ["x"; "-w"; "5"]); Some ([("-w", "-t")], []); None].
Proof. reflexivity. Qed.

Example select_week_first_answer_valid :
  select_week ["n"; "5"] =
  (Ret (PyStr "5"), [],
   [EInput "Generate report for default week? (y/n) -> ";
    EInput "For which week would you like to generate a report? (1 - 17) -> "]).
Proof. reflexivity. Qed.

(** C1. After an invalid answer the resolvers ask again, but the result of
    the retry is dropped: [select_week] answered "x", "n", "5" returns
    [None] and not "5", and [select_league] answered "x", "y" builds the
    report of the default league and returns [None]. *)
Theorem C1_retry_result_is_dropped :
  select_week ["x"; "n"; "5"] =
    (Ret PyNone, [],
     [EInput "Generate report for default week? (y/n) -> ";
      EPrint "You must select either 'y' or 'n'.";
      EInput "Generate report for default week? (y/n) -> ";
      EInput "For which week would you like to generate a report? (1 - 17) -> "]) /\
  select_week ["n"; "25"; "n"; "5"] =
    (Ret PyNone, [],
     [EInput "Generate report for default week? (y/n) -> ";
      EInput "For which week would you like to generate a report? (1 - 17) -> ";
      EPrint "Please select a valid week number between 1 and 17.";
      EInput "Generate report for default week? (y/n) -> ";
      EInput "For which week would you like to generate a report? (1 - 17) -> "]) /\
  select_league (C := sample) (PyStr "5") PyNone PyNone PyNone PyNone (PyBool false) PyNone
      (PyBool false) (PyBool false) (PyBool false) (PyBool false) (PyBool false) ["x"; "y"] =
    (Ret None, [],
     [EInput "Generate report for default league? (y/n) -> ";
      EPrint "You must select either 'y' or 'n'.";
      EInput "Generate report for default league? (y/n) -> ";
      EBuild (sample_args None)]).
Proof. repeat split. Qed.

(** C2. A league ID typed at the prompt and rejected by the builder makes
    the resolution start over without it, but the run does not end with the
    report of the second round: with week 5 on the command line and the
    answers "n", "999", "y", the builder is called for league 999, then for
    the default league, and the run dies on the [None] that [select_league]
    returned. *)
Theorem C2_report_of_the_retry_is_lost :
  script (C := sample) (sample_world [] ["-w"; "5"]) ["n"; "999"; "y"] =
  (Raise AttributeError, [],
   [ELog DEBUG config_available_msg;
    EInput "Generate report for default league? (y/n) -> ";
    EInput "What is the league ID of the league for which you want to generate a report? -> ";
    EBuild (sample_args (Some (PyStr "999")));
    EPrint "The league ID you have selected is not valid.";
    EInput "Generate report for default league? (y/n) -> ";
    EBuild (sample_args None)]).
Proof. vm_compute. reflexivity. Qed.

(** ** A league ID given on the command line *)

Section SelectedLeague.
Context `{C : Collaborators}.

(** C10. With a league ID in the options, [select_league] takes the
    "selected" path: beyond the dialogue about the week there is no prompt,
    the builder is called once with that ID, and an [IndexError] it raises
    ends the run. *)
Theorem C10_selected_league_IndexError_ends_run
    (config : config_ini) (options : gmap string pyval) (stdin rest : list string)
    (wk : pyval) (evs : list event) :
  truthy (get options "league_id" PyNone) = true ->
  resolve_week (get options "week" PyNone) stdin = (Ret wk, rest, evs) ->
  FantasyFootballReport (keywords options wk (Some (get options "league_id" PyNone)))
    = Raise IndexError ->
  run_report config options stdin =
    (Raise IndexError, rest,
     evs ++ [EBuild (keywords options wk (Some (get options "league_id" PyNone)))]) /\
  Forall (fun e => is_week_dialogue e = true) evs.
Proof.
  intros Hleague Hweek Hreject. split.
  - unfold run_report, select_league. cbn [select_league_rec].
    rewrite Hleague. cbn [negb]. run.
    cbn [String.eqb Ascii.eqb Bool.eqb]. run. rewrite Hweek.
    unfold build. run. fold (keywords options wk (Some (get options "league_id" PyNone))).
    rewrite Hreject. reflexivity.
  - unfold resolve_week in Hweek.
    destruct (negb (truthy (get options "week" PyNone))).
    + pose proof (select_week_dialogue stdin) as [Hevs _].
      rewrite Hweek in Hevs. exact Hevs.
    + inversion Hweek. constructor.
Qed.

End SelectedLeague.

(** The statement of C10 at a run of the sample installation. *)
Lemma C10_witness :
  run_report (C := sample) (sample_config false false "post")
    (<["league_id" := PyStr "999"]> (<["week" := PyStr "5"]> ∅)) ["n"; "1234"] =
    (Raise IndexError, ["n"; "1234"],
     [] ++ [EBuild (keywords (<["league_id" := PyStr "999"]> (<["week" := PyStr "5"]> ∅))
                      (PyStr "5") (Some (PyStr "999")))]) /\
  Forall (fun e => is_week_dialogue e = true) [].
Proof.
  apply (C10_selected_league_IndexError_ends_run (C := sample)); reflexivity.
Defined.

(** ** Start-up: [config.ini] and the dependency scan *)

(** C9, as the claim has it: the script started without [config.ini] ends
    with exit status 0, the status of a successful run. *)
Lemma C9_missing_config_exit_status_0 :
  outcome_of (script (C := sample)
                {| config_isfile := false; config_access := false;
                   config := sample_config false false "post";
                   requirements_txt := []; argv := [] |} [])
    = Exit None /\
  ~ exit_status (outcome_of (script (C := sample)
                   {| config_isfile := false; config_access := false;
                      config := sample_config false false "post";
                      requirements_txt := []; argv := [] |} [])) <> 0%Z.
Proof. split; [reflexivity | intros H; apply H; reflexivity]. Qed.

Section StartUp.
Context `{C : Collaborators}.

(** C9, amended. Without a readable [config.ini] the script logs one error
    and calls [sys.exit()]: nothing is read from the command line or from
    standard input, nothing else happens, and the exit status is 0. *)
Theorem C9_missing_config_stops_script (w : world) (stdin : list string) :
  config_isfile w && config_access w = false ->
  script w stdin =
    (Exit None, stdin,
     [ELog ERROR (if config_isfile w then config_no_access_msg else config_not_found_msg)]) /\
  exit_status (outcome_of (script w stdin)) = 0%Z.
Proof.
  intros Hcfg. unfold script, config_check.
  destruct (config_isfile w); [destruct (config_access w); [discriminate |] |];
    split; reflexivity.
Qed.

Lemma check_dependencies_run (dependencies : list string) :
  Forall (fun d => forall e, require d <> RequireRaises e) dependencies ->
  forall (count : nat) (stdin : list string),
    check_dependencies dependencies count stdin =
    (Ret (count + length (List.filter unsatisfiable dependencies)), stdin,
     flat_map remediation dependencies).
Proof.
  induction 1 as [| dependency dependencies Hd _ IH]; intros count stdin.
  - cbn. rewrite Nat.add_0_r. reflexivity.
  - cbn [check_dependencies List.filter flat_map]. rewrite bind_run.
    unfold unsatisfiable at 1, remediation at 1.
    destruct (require dependency) as [| dnfe tb | vce tb | e]; run.
    + rewrite IH. reflexivity.
    + rewrite IH. cbn [length]. rewrite Nat.add_succ_r. reflexivity.
    + rewrite IH. cbn [length]. rewrite Nat.add_succ_r. reflexivity.
    + exfalso. apply (Hd e). reflexivity.
Qed.

(** C5. When every line of [requirements.txt] resolves or fails as not
    found or as a version conflict: if some dependency fails, the script
    logs the remediation of every failing dependency, in order, then one
    summary with the count of failures, and calls [sys.exit()] without
    having parsed the command line, prompted or built anything; if none
    fails, the scan logs nothing and the script goes on with the command
    line. The summary says DEPENDENCY for one failure and DEPENDENCIES
    otherwise. *)
Theorem C5_preflight_reports_every_failure (w : world) (stdin : list string) :
  config_isfile w = true -> config_access w = true ->
  Forall (fun d => forall e, require d <> RequireRaises e)
    (dependencies_of (requirements_txt w)) ->
  (List.filter unsatisfiable (dependencies_of (requirements_txt w)) <> [] ->
   script w stdin =
     (Exit None, stdin,
      [ELog DEBUG config_available_msg]
        ++ flat_map remediation (dependencies_of (requirements_txt w))
        ++ [ELog ERROR
              (missing_summary
                 (length (List.filter unsatisfiable (dependencies_of (requirements_txt w)))))])) /\
  (List.filter unsatisfiable (dependencies_of (requirements_txt w)) = [] ->
   script w stdin =
     after [ELog DEBUG config_available_msg]
       ((options ← parse_args (argv w); run_report (config w) options) stdin)) /\
  missing_summary 1 = "MISSING 1 DEPENDENCY. Report generation aborted." /\
  (forall n, n <> 1 ->
     missing_summary n =
       ("MISSING " +:+ str_of_nat n +:+ " ") +:+ "DEPENDENCIES" +:+ ". Report generation aborted.").
Proof.
  intros Hfile Haccess Hdeps.
  assert (Hscan : forall s,
    preflight (requirements_txt w) s =
    match length (List.filter unsatisfiable (dependencies_of (requirements_txt w))) with
    | O => (Ret tt, s, flat_map remediation (dependencies_of (requirements_txt w)))
    | S n => (Exit None, s,
              flat_map remediation (dependencies_of (requirements_txt w))
                ++ [ELog ERROR (missing_summary (S n))])
    end).
  { intros s. unfold preflight. rewrite bind_run.
    rewrite (check_dependencies_run _ Hdeps). cbn [Nat.add].
    destruct (length _); cbn [Nat.ltb Nat.leb]; run; rewrite ?app_nil_r; reflexivity. }
  assert (Hnone : List.filter unsatisfiable (dependencies_of (requirements_txt w)) = [] ->
                  flat_map remediation (dependencies_of (requirements_txt w)) = []).
  { clear. induction (dependencies_of (requirements_txt w)) as [| d l IH]; [reflexivity |].
    cbn [List.filter flat_map]. unfold unsatisfiable at 1, remediation at 1.
    destruct (require d); try discriminate; exact IH. }
  repeat split.
  - intros Hsome. unfold script, config_check, main. rewrite Hfile, Haccess. run.
    rewrite Hscan.
    destruct (List.filter unsatisfiable _) as [| d l]; [contradiction |]. reflexivity.
  - intros Hnil. unfold script, config_check, main. rewrite Hfile, Haccess. run.
    rewrite Hscan. rewrite (Hnone Hnil), Hnil. cbn [length]. run.
    unfold after, outcome_of, unread_of, events_of.
    destruct (parse_args (argv w) stdin) as [[[options | e | c] rest] evs]; try reflexivity.
    cbn [fst snd]. destruct (run_report (config w) options rest) as [[r rest'] evs'].
    reflexivity.
  - intros n Hn. unfold missing_summary.
    destruct (Nat.eqb_spec n 1); [contradiction | reflexivity].
Qed.

End StartUp.

(** The statement of C9 at a run of the sample installation. *)
Lemma C9_witness :
  script (C := sample)
    {| config_isfile := false; config_access := true;
       config := sample_config true true "post";
       requirements_txt := []; argv := ["-w"; "5"] |} ["y"] =
    (Exit None, ["y"], [ELog ERROR config_not_found_msg]) /\
  exit_status
    (outcome_of
       (script (C := sample)
          {| config_isfile := false; config_access := true;
             config := sample_config true true "post";
             requirements_txt := []; argv := ["-w"; "5"] |} ["y"])) = 0%Z.
Proof.
  apply (C9_missing_config_stops_script (C := sample)). reflexivity.
Defined.

(** The statement of C5 at a run of the sample installation. *)
Lemma C5_witness :
  script (C := sample) (sample_world sample_requirements ["-w"; "5"]) ["y"] =
  (Exit None, ["y"],
   [ELog DEBUG config_available_msg;
    ELog ERROR ("Error: The 'docopt==0.6.2' distribution was not found" +:+ nl +:+ "Traceback");
    ELog ERROR (missing_dependency_msg "docopt==0.6.2" "docopt");
    ELog ERROR ("Error: (requests 2.9.1, Requirement.parse('requests>=2.20'))" +:+ nl
                +:+ "Traceback");
    ELog ERROR (missing_dependency_msg "requests>=2.20" "requests>=2.20");
    ELog ERROR "MISSING 2 DEPENDENCIES. Report generation aborted."]).
Proof.
  refine (proj1 (C5_preflight_reports_every_failure (C := sample)
                   (sample_world sample_requirements ["-w"; "5"]) ["y"] eq_refl eq_refl _) _).
  - repeat (constructor; [intros e H; vm_compute in H; discriminate H |]). constructor.
  - vm_compute. discriminate.
Defined.

(** ** The week on the command line *)

(** C8, as the claim has it: a week argument that is not a number ends
    [main] with an uncaught [ValueError]. *)
Lemma C8_non_numeric_week_raises :
  main (C := sample) [] ["-w"; "abc"] [] = (Raise ValueError, [], []).
Proof. reflexivity. Qed.

Lemma getopt_week_argument (arg : string) :
  getopt ["-w"; arg] "hf:l:w:g:y:srp:bqtd" = Some ([("-w", arg)], []).
Proof. reflexivity. Qed.

Lemma parse_opt_week_argument (options_dict : gmap string pyval) (arg : string) :
  parse_opt options_dict "-w" arg =
  (n ← int_of arg;
   if (n <? 1)%Z || (n >? 17)%Z then
     print (nl +:+ "Please select a valid week number from 1 to 17.");;
     week ← select_week;
     mret (<["week" := week]> options_dict)
   else mret (<["week" := PyStr arg]> options_dict)).
Proof. reflexivity. Qed.

(** The round of the option loop for [-w], run. *)
Lemma parse_opt_week_run (options_dict : gmap string pyval) (arg : string)
    (stdin : list string) :
  parse_opt options_dict "-w" arg stdin =
  match int arg with
  | None => (Raise ValueError, stdin, [])
  | Some n =>
      if (1 <=? n)%Z && (n <=? 17)%Z then
        (Ret (<["week" := PyStr arg]> options_dict), stdin, [])
      else
        after [EPrint (nl +:+ "Please select a valid week number from 1 to 17.")]
          match select_week stdin with
          | (Ret week, rest, evs) => (Ret (<["week" := week]> options_dict), rest, evs)
          | (Raise e, rest, evs) => (Raise e, rest, evs)
          | (Exit c, rest, evs) => (Exit c, rest, evs)
          end
  end.
Proof.
  rewrite parse_opt_week_argument.
  run. unfold int_of. destruct (int arg) as [n |]; [| reflexivity]. run.
  replace ((1 <=? n)%Z && (n <=? 17)%Z) with (negb ((n <? 1)%Z || (n >? 17)%Z)).
  2: { rewrite Z.gtb_ltb, negb_orb, !Z.ltb_antisym, !negb_involutive. reflexivity. }
  destruct ((n <? 1)%Z || (n >? 17)%Z); cbn [negb]; [| reflexivity].
  run. unfold after, outcome_of, unread_of, events_of.
  destruct (select_week stdin) as [[[week | e | c] rest] evs]; run;
    rewrite ?app_nil_r; reflexivity.
Qed.

(** C8, amended. For every string given as the week argument, in the round
    of the option loop that handles it and so for the command line [-w arg]:
    when [int] reads it as a number from 1 to 17 the string is stored as
    the week and nothing is printed or read; when [int] reads it as
    another number the warning is printed and the week stored is the one
    [select_week] returns; when [int] cannot read it, a [ValueError]
    escapes before anything is printed or stored. *)
Theorem C8_week_argument (arg : string) (stdin : list string) :
  (forall options_dict : gmap string pyval,
     parse_opt options_dict "-w" arg stdin =
     match int arg with
     | None => (Raise ValueError, stdin, [])
     | Some n =>
         if (1 <=? n)%Z && (n <=? 17)%Z then
           (Ret (<["week" := PyStr arg]> options_dict), stdin, [])
         else
           after [EPrint (nl +:+ "Please select a valid week number from 1 to 17.")]
             match select_week stdin with
             | (Ret week, rest, evs) => (Ret (<["week" := week]> options_dict), rest, evs)
             | (Raise e, rest, evs) => (Raise e, rest, evs)
             | (Exit c, rest, evs) => (Exit c, rest, evs)
             end
     end) /\
  parse_args ["-w"; arg] stdin = parse_opt ∅ "-w" arg stdin.
Proof.
  split; [intros options_dict; apply parse_opt_week_run |].
  unfold parse_args. rewrite getopt_week_argument. run. cbn [parse_opts]. run.
  destruct (parse_opt ∅ "-w" arg stdin) as [[[d | e | c] rest] evs]; run;
    rewrite ?app_nil_r; reflexivity.
Qed.

(** ** Distribution *)

Section Distribution.
Context `{C : Collaborators}.

Lemma upload_step_in_test_mode (config : config_ini) (options : gmap string pyval)
    (report_pdf : string) (stdin : list string) :
  truthy (get options "test" (PyBool false)) = true ->
  upload_step config options report_pdf stdin =
    (Ret "", stdin,
     if google_drive_upload config
     then [ELog INFO "Test report NOT uploaded to Google Drive."] else []).
Proof.
  intros Htest. unfold upload_step. rewrite Htest. cbn [negb].
  destruct (google_drive_upload config); reflexivity.
Qed.

Lemma slack_step_in_test_mode (config : config_ini) (options : gmap string pyval)
    (report_pdf upload_message : string) (stdin : list string) :
  truthy (get options "test" (PyBool false)) = true ->
  slack_step config options report_pdf upload_message stdin =
    (Ret tt, stdin,
     if post_to_slack config then [ELog INFO "Test report NOT posted to Slack."] else []).
Proof.
  intros Htest. unfold slack_step. rewrite Htest. cbn [negb].
  destruct (post_to_slack config); reflexivity.
Qed.

(** C4. With the test flag in the options, whatever the two switches of
    [config.ini] say: the distribution returns having only logged, for each
    sink that is switched on, that the test report was not sent to it; and
    no event of the whole [__main__] block is a call into Google Drive or
    Slack. *)
Theorem C4_test_mode_isolation (config : config_ini) (options : gmap string pyval)
    (report_pdf : string) (stdin : list string) :
  truthy (get options "test" (PyBool false)) = true ->
  distribute config options report_pdf stdin =
    (Ret tt, stdin,
     (if google_drive_upload config
      then [ELog INFO "Test report NOT uploaded to Google Drive."] else [])
     ++ (if post_to_slack config
         then [ELog INFO "Test report NOT posted to Slack."] else [])) /\
  Forall (fun e => is_sink_call e = false) (events_of (run_report config options stdin)).
Proof.
  intros Htest.
  assert (Hdist : forall pdf s,
    distribute config options pdf s =
    (Ret tt, s,
     (if google_drive_upload config
      then [ELog INFO "Test report NOT uploaded to Google Drive."] else [])
     ++ (if post_to_slack config
         then [ELog INFO "Test report NOT posted to Slack."] else []))).
  { intros pdf s. unfold distribute. rewrite bind_run.
    rewrite upload_step_in_test_mode by exact Htest.
    rewrite slack_step_in_test_mode by exact Htest. reflexivity. }
  split; [apply Hdist |].
  apply (emits_bind (fun e => is_sink_call e = false) (fun _ => True) (fun _ => True)).
  - apply select_league_emits with (W := fun _ => True); auto.
    intros [] He; try discriminate; reflexivity.
  - intros report _. eapply emits_bind with (Q1 := fun _ => True).
    + apply create_pdf_emits. reflexivity.
    + intros pdf _ s. rewrite Hdist. split; [| exact I].
      cbn [events_of snd].
      destruct (google_drive_upload config), (post_to_slack config);
        repeat constructor.
Qed.

End Distribution.

(** The statement of C4 at a run of the sample installation. *)
Lemma C4_witness :
  distribute (C := sample) (sample_config true true "post")
    (<["test" := PyBool true]> ∅) "report.pdf" ["y"; "y"] =
    (Ret tt, ["y"; "y"],
     [ELog INFO "Test report NOT uploaded to Google Drive."]
     ++ [ELog INFO "Test report NOT posted to Slack."]) /\
  Forall (fun e => is_sink_call e = false)
    (events_of (run_report (C := sample) (sample_config true true "post")
                  (<["test" := PyBool true]> ∅) ["y"; "y"])).
Proof.
  apply (C4_test_mode_isolation (C := sample)). reflexivity.
Defined.

(** C3, as the claim has it: with Google Drive out of reach the run is
    aborted by the uploader's exception: nothing is logged, Slack is never
    called although it is switched on and set to send the file itself, and
    the process ends with status 1. *)
Lemma C3_upload_failure_aborts_run :
  distribute (C := drive_down) (sample_config true true "file") ∅ "report.pdf" [] =
    (Raise (OtherError "HttpError"), [], [EDriveUploader "report.pdf"; EDriveUpload]) /\
  exit_status (outcome_of (distribute (C := drive_down) (sample_config true true "file") ∅
                             "report.pdf" [])) = 1%Z /\
  ~ In (ESlackFile "report.pdf")
      (events_of (distribute (C := drive_down) (sample_config true true "file") ∅
                    "report.pdf" [])).
Proof.
  repeat split. intros [H | [H | []]]; discriminate H.
Qed.

(** C7, as the claim has it: with an unsupported [post_or_file] the script
    ends through [sys.exit()], with exit status 0. *)
Lemma C7_unsupported_mode_exit_status_0 :
  distribute (C := sample) (sample_config true true "chat") ∅ "report.pdf" [] =
    (Exit None, [],
     [EDriveUploader "report.pdf"; EDriveUpload; ELog INFO "https://drive.google.com/report";
      ESlackMessenger; ELog WARNING (unsupported_slack_msg "chat")]) /\
  ~ exit_status (outcome_of (distribute (C := sample) (sample_config true true "chat") ∅
                               "report.pdf" [])) <> 0%Z.
Proof. split; [reflexivity | intros H; apply H; reflexivity]. Qed.

Section Sinks.
Context `{C : Collaborators}.

(** C3, amended. Outside test mode: an exception raised by the uploader is
    not caught, it ends the distribution before anything is logged and
    before Slack is reached; when the uploader returns its message, the
    message is logged and the Slack step follows with it; when the upload
    is switched off the Slack step runs with the empty message, which is
    what "post" mode then posts. *)
Theorem C3_upload_then_slack (config : config_ini) (options : gmap string pyval)
    (report_pdf : string) (stdin : list string) :
  truthy (get options "test" (PyBool false)) = false ->
  (forall u e,
     google_drive_upload config = true ->
     GoogleDriveUploader report_pdf = Ret u -> upload_file u = Raise e ->
     distribute config options report_pdf stdin =
       (Raise e, stdin, [EDriveUploader report_pdf; EDriveUpload])) /\
  (forall u upload_message,
     google_drive_upload config = true ->
     GoogleDriveUploader report_pdf = Ret u -> upload_file u = Ret upload_message ->
     distribute config options report_pdf stdin =
       after [EDriveUploader report_pdf; EDriveUpload; ELog INFO upload_message]
         (slack_step config options report_pdf upload_message stdin)) /\
  (google_drive_upload config = false ->
   distribute config options report_pdf stdin =
     slack_step config options report_pdf "" stdin) /\
  (forall upload_message m,
     post_to_slack config = true -> post_or_file config = "post" ->
     SlackMessenger = Ret m ->
     slack_step config options report_pdf upload_message stdin =
       after [ESlackMessenger; ESlackPost upload_message]
         ((slack_response ← lift (post_to_selected_slack_channel m upload_message);
           if ok slack_response then
             log INFO ("Report " +:+ report_pdf +:+ " successfully posted to Slack!")
           else
             log ERROR ("Report " +:+ report_pdf +:+ " was NOT posted to Slack with error: "
                        +:+ error slack_response)) stdin)).
Proof.
  intros Htest. split; [| split; [| split]].
  - intros u e Hup Hu He. unfold distribute, upload_step.
    rewrite Hup, Htest. cbn [negb]. run. rewrite Hu. run. rewrite He. reflexivity.
  - intros u msg Hup Hu Hmsg. unfold distribute, upload_step.
    rewrite Hup, Htest. cbn [negb]. run. rewrite Hu. run. rewrite Hmsg. run.
    unfold after, outcome_of, unread_of, events_of.
    destruct (slack_step config options report_pdf msg stdin) as [[r rest] evs].
    reflexivity.
  - intros Hup. unfold distribute, upload_step. rewrite Hup. run.
    destruct (slack_step config options report_pdf "" stdin) as [[r rest] evs].
    reflexivity.
  - intros msg m Hslack Hmode Hm. unfold slack_step.
    rewrite Hslack, Htest, Hmode. cbn [negb String.eqb Ascii.eqb Bool.eqb]. run.
    rewrite Hm. run.
    unfold after, outcome_of, unread_of, events_of.
    destruct (post_to_selected_slack_channel m msg) as [response | e | c]; run;
      try reflexivity.
    destruct (ok response); reflexivity.
Qed.

(** C7, amended. Outside test mode, with Slack switched on and a
    [post_or_file] that is neither "post" nor "file": once the messenger is
    made, the Slack step logs a warning that names the value and calls
    [sys.exit()]; nothing is posted or uploaded to Slack, and the exit
    status is 0. *)
Theorem C7_unsupported_mode_stops_script (config : config_ini)
    (options : gmap string pyval) (report_pdf upload_message : string)
    (stdin : list string) (m : Messenger) :
  truthy (get options "test" (PyBool false)) = false ->
  post_to_slack config = true ->
  post_or_file config <> "post" -> post_or_file config <> "file" ->
  SlackMessenger = Ret m ->
  slack_step config options report_pdf upload_message stdin =
    (Exit None, stdin,
     [ESlackMessenger; ELog WARNING (unsupported_slack_msg (post_or_file config))]) /\
  unsupported_slack_msg (post_or_file config) =
    "You have configured " +:+ dquote +:+ "config.ini" +:+ dquote
      +:+ " with unsupported Slack setting: post_or_file = " +:+ post_or_file config
      +:+ ". Please choose " +:+ dquote +:+ "post" +:+ dquote +:+ " or " +:+ dquote
      +:+ "file" +:+ dquote +:+ " and try again." /\
  exit_status (outcome_of (slack_step config options report_pdf upload_message stdin)) = 0%Z.
Proof.
  intros Htest Hslack Hpost Hfile Hm.
  apply String.eqb_neq in Hpost, Hfile.
  assert (Hrun : slack_step config options report_pdf upload_message stdin =
    (Exit None, stdin,
     [ESlackMessenger; ELog WARNING (unsupported_slack_msg (post_or_file config))])).
  { unfold slack_step. rewrite Hslack, Htest. cbn [negb]. run. rewrite Hm. run.
    rewrite Hpost, Hfile. run. reflexivity. }
  split; [exact Hrun | split; [reflexivity | rewrite Hrun; reflexivity]].
Qed.

End Sinks.

(** The statement of C3 at a run of the sample installation. *)
Lemma C3_witness :
  distribute (C := drive_down) (sample_config true true "file") ∅ "report.pdf" ["y"] =
    (Raise (OtherError "HttpError"), ["y"], [EDriveUploader "report.pdf"; EDriveUpload]) /\
  distribute (C := sample) (sample_config true true "post") ∅ "report.pdf" ["y"] =
    after [EDriveUploader "report.pdf"; EDriveUpload; ELog INFO "https://drive.google.com/report"]
      (slack_step (C := sample) (sample_config true true "post") ∅ "report.pdf"
         "https://drive.google.com/report" ["y"]) /\
  distribute (C := sample) (sample_config false true "post") ∅ "report.pdf" ["y"] =
    slack_step (C := sample) (sample_config false true "post") ∅ "report.pdf" "" ["y"] /\
  slack_step (C := sample) (sample_config false true "post") ∅ "report.pdf" "" ["y"] =
    (Ret tt, ["y"],
     [ESlackMessenger; ESlackPost ""; ELog INFO "Report report.pdf successfully posted to Slack!"]).
Proof.
  split; [| split; [| split]].
  - exact (proj1 (C3_upload_then_slack (C := drive_down) (sample_config true true "file") ∅
                    "report.pdf" ["y"] eq_refl)
             "report.pdf" (OtherError "HttpError") eq_refl eq_refl eq_refl).
  - exact (proj1 (proj2 (C3_upload_then_slack (C := sample) (sample_config true true "post") ∅
                           "report.pdf" ["y"] eq_refl))
             "report.pdf" "https://drive.google.com/report" eq_refl eq_refl eq_refl).
  - exact (proj1 (proj2 (proj2 (C3_upload_then_slack (C := sample)
                                  (sample_config false true "post") ∅
                                  "report.pdf" ["y"] eq_refl))) eq_refl).
  - exact (proj2 (proj2 (proj2 (C3_upload_then_slack (C := sample)
                                  (sample_config false true "post") ∅
                                  "report.pdf" ["y"] eq_refl)))
             "" tt eq_refl eq_refl eq_refl).
Defined.

(** The statement of C7 at a run of the sample installation. *)
Lemma C7_witness :
  slack_step (C := sample) (sample_config true true "chat") ∅ "report.pdf"
    "https://drive.google.com/report" ["y"] =
    (Exit None, ["y"], [ESlackMessenger; ELog WARNING (unsupported_slack_msg "chat")]) /\
  unsupported_slack_msg "chat" =
    "You have configured " +:+ dquote +:+ "config.ini" +:+ dquote
      +:+ " with unsupported Slack setting: post_or_file = " +:+ "chat"
      +:+ ". Please choose " +:+ dquote +:+ "post" +:+ dquote +:+ " or " +:+ dquote
      +:+ "file" +:+ dquote +:+ " and try again." /\
  exit_status (outcome_of (slack_step (C := sample) (sample_config true true "chat") ∅
                             "report.pdf" "https://drive.google.com/report" ["y"])) = 0%Z.
Proof.
  apply (C7_unsupported_mode_stops_script (C := sample) (sample_config true true "chat") ∅
           "report.pdf" "https://drive.google.com/report" ["y"] tt);
    first [reflexivity | discriminate].
Defined.

(** * Further properties of the script *)

(** ** The option loop *)


Lemma bind_assoc {A B D} (m : M A) (f : A -> M B) (g : B -> M D) (stdin : list string) :
  ((m ≫= f) ≫= g) stdin = (m ≫= (fun a => f a ≫= g)) stdin.
Proof.
  rewrite (bind_run (m ≫= f) g), (bind_run m f), (bind_run m (fun a => f a ≫= g)).
  destruct (m stdin) as [[[a | e | c] s1] evs1]; try reflexivity.
  rewrite bind_run.
  destruct (f a s1) as [[[b | e | c] s2] evs2]; try reflexivity.
  destruct (g b s2) as [[r s3] evs3]. rewrite app_assoc. reflexivity.
Qed.

Lemma ret_bind {A B} (a : A) (f : A -> M B) (stdin : list string) :
  (mret a ≫= f) stdin = f a stdin.
Proof.
  rewrite bind_run. cbn [mret M_mret M_ret].
  destruct (f a stdin) as [[r s] evs]. reflexivity.
Qed.

Lemma parse_opts_app (opts1 opts2 : list (string * string)) :
  forall (options_dict : gmap string pyval) (stdin : list string),
    parse_opts (opts1 ++ opts2) options_dict stdin =
    (options_dict ← parse_opts opts1 options_dict; parse_opts opts2 options_dict) stdin.
Proof.
  induction opts1 as [| [opt arg] opts1 IH]; intros options_dict stdin.
  - cbn [app parse_opts]. rewrite ret_bind. reflexivity.
  - cbn [app parse_opts]. rewrite bind_assoc. apply bind_cong.
    intros d stdin' evs _. apply IH.
Qed.

Lemma startswith_dashes (a : string) :
  startswith "--" a = true -> exists r, a = String "-" (String "-" r).
Proof.
  unfold startswith. destruct a as [| c1 [| c2 r]]; cbn [String.prefix]; intros H.
  - discriminate H.
  - destruct (ascii_dec "-" c1); discriminate H.
  - destruct (ascii_dec "-" c1) as [<- |]; [| discriminate H].
    destruct (ascii_dec "-" c2) as [<- |]; [| discriminate H].
    exists r. reflexivity.
Qed.

(** X1. [getopt] is called without long options: a command line whose first
    argument starts with two dashes (and is not the bare separator) prints
    the usage text and exits with status 2, although that text lists a long
    form for every option. *)
Theorem long_options_rejected (a : string) (rest stdin : list string) :
  startswith "--" a = true -> a <> "--" ->
  parse_args (a :: rest) stdin = (Exit (Some 2%Z), stdin, [EPrint usage_str]) /\
  exit_status (outcome_of (parse_args (a :: rest) stdin)) = 2%Z.
Proof.
  intros Hlong Hsep.
  assert (Hrun : parse_args (a :: rest) stdin = (Exit (Some 2%Z), stdin, [EPrint usage_str])).
  { unfold parse_args, getopt. cbn [length getopt_loop].
    rewrite Hlong. apply String.eqb_neq in Hsep. rewrite Hsep.
    destruct (startswith_dashes a Hlong) as [r ->].
    cbn [startswith String.prefix String.eqb Ascii.eqb Bool.eqb andb negb].
    destruct (ascii_dec "-" "-"); [| contradiction].
    destruct r; reflexivity. }
  split; [exact Hrun | rewrite Hrun; reflexivity].
Qed.

(** X2. [getopt] stops at the first argument that is not an option, and
    [main] drops what is left: when the command line starts with such an
    argument, no option is read at all and the options are empty. *)
Theorem positional_argument_ends_options (a : string) (rest stdin : list string) :
  startswith "-" a = false \/ a = "-" ->
  parse_args (a :: rest) stdin = (Ret ∅, stdin, []).
Proof.
  intros Ha. unfold parse_args, getopt. cbn [length getopt_loop].
  assert (startswith "-" a && negb (String.eqb a "-") = false) as ->.
  { destruct Ha as [-> | ->]; reflexivity. }
  reflexivity.
Qed.

Lemma parse_opt_help (options_dict : gmap string pyval) (opt arg : string)
    (stdin : list string) :
  is_opt opt "-h" "--help" = true ->
  parse_opt options_dict opt arg stdin = (Exit None, stdin, [EPrint usage_str]).
Proof. intros H. unfold parse_opt. rewrite H. reflexivity. Qed.

(** X3. [-h] takes effect in its turn: the options before it are processed
    (with what they print and read), then the usage text is printed and the
    script exits with status 0; the options after it are never looked at. *)
Theorem help_ends_option_loop (opts1 opts2 : list (string * string)) (opt arg : string)
    (options_dict d : gmap string pyval) (stdin rest : list string) (evs : list event) :
  is_opt opt "-h" "--help" = true ->
  parse_opts opts1 options_dict stdin = (Ret d, rest, evs) ->
  parse_opts (opts1 ++ (opt, arg) :: opts2) options_dict stdin =
    (Exit None, rest, evs ++ [EPrint usage_str]) /\
  exit_status (outcome_of (parse_opts (opts1 ++ (opt, arg) :: opts2) options_dict stdin)) = 0%Z.
Proof.
  intros Hh H1.
  assert (Hrun : parse_opts (opts1 ++ (opt, arg) :: opts2) options_dict stdin =
                 (Exit None, rest, evs ++ [EPrint usage_str])).
  { rewrite parse_opts_app, bind_run, H1. cbn [parse_opts]. rewrite bind_run.
    rewrite parse_opt_help by exact Hh. reflexivity. }
  split; [exact Hrun | rewrite Hrun; reflexivity].
Qed.

Lemma is_opt_true (opt short long : string) :
  is_opt opt short long = true -> opt = short \/ opt = long.
Proof.
  unfold is_opt. intros H. apply orb_true_iff in H as [H | H];
    apply String.eqb_eq in H; auto.
Qed.

(** The round for [-w] only touches the week. *)
Lemma parse_opt_week_frame (options_dict d : gmap string pyval) (arg key : string)
    (default : pyval) (stdin rest : list string) (evs : list event) :
  key <> "week" ->
  parse_opt options_dict "-w" arg stdin = (Ret d, rest, evs) ->
  get d key default = get options_dict key default.
Proof.
  intros Hkey H. rewrite parse_opt_week_run in H.
  destruct (int arg) as [n |]; [| discriminate H].
  destruct ((1 <=? n)%Z && (n <=? 17)%Z).
  - inversion H; subst. apply get_insert_ne. congruence.
  - unfold after, outcome_of, unread_of, events_of in H.
    destruct (select_week stdin) as [[[wk | e | c] s] evs']; cbn in H; inversion H; subst.
    apply get_insert_ne. congruence.
Qed.

Ltac get_insert :=
  unfold get; rewrite ?lookup_insert_eq, ?lookup_insert_ne by discriminate; reflexivity.

(** A round that returns sets the key of a flag to [True] when the option
    is that flag, and leaves the key alone otherwise. *)
Lemma parse_opt_flag_round (short long key : string) (options_dict d : gmap string pyval)
    (opt arg : string) (stdin rest : list string) (evs : list event) :
  In (short, long, key) flag_options ->
  parse_opt options_dict opt arg stdin = (Ret d, rest, evs) ->
  get d key (PyBool false) =
    if is_opt opt short long then PyBool true else get options_dict key (PyBool false).
Proof.
  intros Hin H. cbn [flag_options In] in Hin.
  destruct (is_opt opt "-w" "--week") eqn:Hw.
  { apply is_opt_true in Hw. destruct Hw; subst opt.
    - apply parse_opt_week_frame with (key := key) (default := PyBool false) in H.
      + rewrite H.
        destruct Hin as [Hin | [Hin | [Hin | [Hin | [Hin | [Hin | []]]]]]];
          inversion Hin; reflexivity.
      + destruct Hin as [Hin | [Hin | [Hin | [Hin | [Hin | [Hin | []]]]]]];
          inversion Hin; discriminate.
    - change (parse_opt options_dict "--week" arg) with (parse_opt options_dict "-w" arg) in H.
      apply parse_opt_week_frame with (key := key) (default := PyBool false) in H.
      + rewrite H.
        destruct Hin as [Hin | [Hin | [Hin | [Hin | [Hin | [Hin | []]]]]]];
          inversion Hin; reflexivity.
      + destruct Hin as [Hin | [Hin | [Hin | [Hin | [Hin | [Hin | []]]]]]];
          inversion Hin; discriminate. }
  unfold parse_opt in H. rewrite Hw in H.
  destruct Hin as [Hin | [Hin | [Hin | [Hin | [Hin | [Hin | []]]]]]];
    inversion Hin; subst short long key; clear Hin;
    repeat match type of H with
    | context [if is_opt ?o ?a ?b then _ else _] =>
        let E := fresh "E" in destruct (is_opt o a b) eqn:E
    end;
    try discriminate H; inversion H; subst; clear H;
    repeat match goal with
    | E : is_opt _ _ _ = true |- _ => apply is_opt_true in E; destruct E; subst opt
    end;
    try discriminate; try get_insert;
    match goal with
    | E : is_opt ?o ?a ?b = false |- context [is_opt ?o ?a ?b] => rewrite E
    end; first [get_insert | reflexivity].
Qed.

Lemma bind_ret_inv {A B} (m : M A) (f : A -> M B) (stdin rest : list string)
    (b : B) (evs : list event) :
  (m ≫= f) stdin = (Ret b, rest, evs) ->
  exists a stdin' evs1 evs2,
    m stdin = (Ret a, stdin', evs1) /\ f a stdin' = (Ret b, rest, evs2) /\
    evs = evs1 ++ evs2.
Proof.
  rewrite bind_run. destruct (m stdin) as [[[a | e | c] stdin'] evs1]; try discriminate.
  destruct (f a stdin') as [[r stdin''] evs2] eqn:Hf. intros H. inversion H; subst.
  exists a, stdin', evs1, evs2. auto.
Qed.

(** X4. When the option loop returns, the key of a flag holds [True] exactly
    when the flag is among the options; otherwise it is as it was. *)
Theorem flags_follow_their_options (short long key : string)
    (opts : list (string * string)) :
  In (short, long, key) flag_options ->
  forall (options_dict d : gmap string pyval) (stdin rest : list string) (evs : list event),
    parse_opts opts options_dict stdin = (Ret d, rest, evs) ->
    get d key (PyBool false) =
      if existsb (fun o => is_opt o.1 short long) opts then PyBool true
      else get options_dict key (PyBool false).
Proof.
  intros Hin. induction opts as [| [opt arg] opts IH]; intros options_dict d stdin rest evs H.
  - cbn in H. inversion H; subst. reflexivity.
  - cbn [parse_opts] in H. apply bind_ret_inv in H as (d1 & s1 & e1 & e2 & H1 & H2 & _).
    apply IH in H2. apply (parse_opt_flag_round _ _ _ _ _ _ _ _ _ _ Hin) in H1.
    rewrite H2, H1. cbn [existsb fst].
    destruct (is_opt opt short long), (existsb _ opts); reflexivity.
Qed.

Lemma flags_follow_their_options_witness :
  get (<["test" := PyBool true]> (<["week" := PyStr "5"]> ∅)) "test" (PyBool false) =
    if existsb (fun o => is_opt o.1 "-t" "--test") [("-w", "5"); ("-t", "")] then PyBool true
    else get (∅ : gmap string pyval) "test" (PyBool false).
Proof.
  apply (flags_follow_their_options "-t" "--test" "test" [("-w", "5"); ("-t", "")]
           ltac:(cbn; tauto) ∅ _ [] [] []).
  reflexivity.
Defined.

Lemma parse_opt_value_round (short long key : string) (options_dict : gmap string pyval)
    (opt arg : string) (stdin : list string) :
  In (short, long, key) value_options -> is_opt opt short long = true ->
  parse_opt options_dict opt arg stdin = (Ret (<[key := PyStr arg]> options_dict), stdin, []).
Proof.
  intros Hin Hopt. cbn [value_options In] in Hin.
  destruct Hin as [Hin | [Hin | [Hin | [Hin | [Hin | []]]]]];
    inversion Hin; subst short long key; clear Hin;
    apply is_opt_true in Hopt; destruct Hopt; subst opt; reflexivity.
Qed.

(** X5. The value of [-f], [-l], [-g], [-y] and [-p] is stored as given,
    whatever it is, without printing or reading anything, and it replaces
    what an earlier occurrence of the option stored. *)
Theorem value_options_stored_verbatim (short long key : string)
    (opts : list (string * string)) (opt arg : string)
    (options_dict d : gmap string pyval) (stdin rest : list string) (evs : list event) :
  In (short, long, key) value_options -> is_opt opt short long = true ->
  parse_opts opts options_dict stdin = (Ret d, rest, evs) ->
  parse_opts (opts ++ [(opt, arg)]) options_dict stdin =
    (Ret (<[key := PyStr arg]> d), rest, evs).
Proof.
  intros Hin Hopt H. rewrite parse_opts_app, bind_run, H. cbn [parse_opts].
  rewrite bind_run, (parse_opt_value_round _ _ _ _ _ _ _ Hin Hopt).
  cbn. rewrite !app_nil_r. reflexivity.
Qed.

Lemma value_options_stored_verbatim_witness :
  parse_opts ([("-l", "1")] ++ [("-l", "not a number")]) ∅ [] =
    (Ret (<["league_id" := PyStr "not a number"]> (<["league_id" := PyStr "1"]> ∅)), [], []).
Proof.
  apply (value_options_stored_verbatim "-l" "--league-id" "league_id");
    [cbn; tauto | reflexivity | reflexivity].
Defined.

(** What is done after a retry hides its result. *)
Lemma retry_outcome (text : string) (retry : M pyval) (stdin : list string) :
  outcome_of ((print text;; retry;; mret PyNone) stdin) =
  match outcome_of (retry stdin) with
  | Ret _ => Ret PyNone
  | Raise e => Raise e
  | Exit c => Exit c
  end.
Proof.
  rewrite bind_outcome. cbn [print emit]. rewrite bind_outcome.
  destruct (retry stdin) as [[[a | e | c] s] evs]; reflexivity.
Qed.

(** X6. [select_week] returns a week number only from its first dialogue:
    it returns the string [s] exactly when the first two answers are "n" and
    [s], with [s] a number from 1 to 17. *)
Theorem select_week_returns_week_iff (stdin : list string) (s : string) :
  outcome_of (select_week stdin) = Ret (PyStr s) <->
  exists rest n, stdin = "n" :: s :: rest /\ int s = Some n /\ (1 <= n <= 17)%Z.
Proof.
  rewrite select_week_unfold. split.
  - rewrite bind_outcome. destruct stdin as [| default stdin]; [discriminate |].
    cbn [input]. destruct (String.eqb default "y"); [discriminate |].
    destruct (String.eqb_spec default "n") as [-> | Hn].
    + rewrite bind_outcome. destruct stdin as [| chosen_week stdin]; [discriminate |].
      cbn [input]. rewrite bind_outcome. unfold int_of.
      destruct (int chosen_week) as [n |] eqn:Hint; [| discriminate].
      cbn [mret M_mret M_ret].
      destruct ((0 <? n)%Z && (n <? 18)%Z) eqn:Hrange.
      * intros H. inversion H; subst. exists stdin, n.
        apply andb_true_iff in Hrange as [H0 H18]. apply Z.ltb_lt in H0, H18.
        repeat split; [exact Hint | lia | lia].
      * rewrite retry_outcome. destruct (outcome_of (select_week stdin)); discriminate.
    + rewrite retry_outcome. destruct (outcome_of (select_week stdin)); discriminate.
  - intros (rest & n & -> & Hint & Hn). rewrite bind_outcome. cbn [input String.eqb Ascii.eqb Bool.eqb].
    rewrite bind_outcome. cbn [input]. rewrite bind_outcome. unfold int_of. rewrite Hint.
    cbn [mret M_mret M_ret].
    assert ((0 <? n)%Z && (n <? 18)%Z = true) as ->.
    { apply andb_true_iff. split; apply Z.ltb_lt; lia. }
    reflexivity.
Qed.



(** ** What reads nothing *)

Lemma keeps_bind {A B} (m : M A) (f : A -> M B) :
  keeps m -> (forall a, keeps (f a)) -> keeps (m ≫= f).
Proof.
  intros Hm Hf stdin. rewrite bind_run. specialize (Hm stdin).
  destruct (m stdin) as [[[a | e | c] stdin'] evs]; cbn in Hm |- *; try exact Hm.
  specialize (Hf a stdin'). destruct (f a stdin') as [[r stdin''] evs'].
  cbn in Hf |- *. congruence.
Qed.

Lemma keeps_now {A} (m : M A) :
  (forall stdin, unread_of (m stdin) = stdin) -> keeps m.
Proof. intros H. exact H. Qed.

Ltac keeps_step :=
  first [ apply keeps_now; reflexivity
        | apply keeps_bind; [| intros ? ] ].

Section BatchRun.
Context `{C : Collaborators}.

Lemma build_keeps (args : report_args) : keeps (build args).
Proof. unfold build. keeps_step; keeps_step. Qed.

Lemma create_pdf_keeps (report : option Report) : keeps (create_pdf report).
Proof. unfold create_pdf. destruct report; [keeps_step; keeps_step | keeps_step]. Qed.

Lemma distribute_keeps_stdin (config : config_ini) (options : gmap string pyval)
    (report_pdf : string) : keeps (distribute config options report_pdf).
Proof.
  unfold distribute, upload_step, slack_step, log.
  keeps_step.
  - destruct (google_drive_upload config); [| keeps_step].
    destruct (negb _); repeat keeps_step.
  - destruct (post_to_slack config); [| keeps_step].
    destruct (negb _); [| keeps_step].
    keeps_step; [repeat keeps_step |].
    keeps_step.
    + destruct (String.eqb _ "post"); [repeat keeps_step |].
      destruct (String.eqb _ "file"); repeat keeps_step.
    + destruct (ok _); keeps_step.
Qed.

Lemma distribute_emits_sinks (Pe : event -> Prop) (config : config_ini)
    (options : gmap string pyval) (report_pdf : string) :
  (forall e, is_sink_call e = true -> Pe e) ->
  (forall lvl msg, Pe (ELog lvl msg)) ->
  emits Pe (fun _ => True) (distribute config options report_pdf).
Proof.
  intros Hs Hl.
  assert (Hsink : forall e, is_sink_call e = true ->
            emits Pe (fun _ : unit => True) (emit e)).
  { intros e He. apply emits_emit; [apply Hs; exact He | exact I]. }
  assert (Hlog : forall lvl msg, emits Pe (fun _ : unit => True) (log lvl msg)).
  { intros lvl msg. apply emits_emit; [apply Hl | exact I]. }
  assert (Hlift : forall A (o : outcome A), emits Pe (fun _ : A => True) (lift o)).
  { intros A o. apply emits_lift. auto. }
  unfold distribute, upload_step, slack_step.
  eapply emits_bind with (Q1 := fun _ => True).
  { destruct (google_drive_upload config); [| apply emits_ret; exact I].
    destruct (negb _).
    - eapply emits_bind with (Q1 := fun _ => True).
      { eapply emits_bind; [apply Hsink; reflexivity | intros; apply Hlift]. }
      intros u _. eapply emits_bind with (Q1 := fun _ => True).
      { eapply emits_bind; [apply Hsink; reflexivity | intros; apply Hlift]. }
      intros msg _. eapply emits_bind; [apply Hlog |].
      intros; apply emits_ret; exact I.
    - eapply emits_bind; [apply Hlog |].
      intros; apply emits_ret; exact I. }
  intros upload_message _.
  destruct (post_to_slack config); [| apply emits_ret; exact I].
  destruct (negb _); [| apply Hlog].
  eapply emits_bind with (Q1 := fun _ => True).
  { eapply emits_bind; [apply Hsink; reflexivity | intros; apply Hlift]. }
  intros m _. eapply emits_bind with (Q1 := fun _ => True).
  { destruct (String.eqb _ "post").
    - eapply emits_bind; [apply Hsink; reflexivity | intros; apply Hlift].
    - destruct (String.eqb _ "file").
      + eapply emits_bind; [apply Hsink; reflexivity | intros; apply Hlift].
      + eapply emits_bind; [apply Hlog | intros; apply emits_exit]. }
  intros response _. destruct (ok response); apply Hlog.
Qed.

(** With a week and a league ID in the options the run asks nothing. *)
(** X11. With a week and a league ID in the options the [__main__] block is
    not interactive: it reads nothing from standard input and neither
    prompts nor prints. *)
Theorem batch_run_reads_nothing (config : config_ini) (options : gmap string pyval)
    (stdin : list string) :
  truthy (get options "week" PyNone) = true ->
  truthy (get options "league_id" PyNone) = true ->
  unread_of (run_report config options stdin) = stdin /\
  Forall (fun e => is_console e = false) (events_of (run_report config options stdin)).
Proof.
  intros Hweek Hleague.
  assert (Hsel : forall s,
    select_league (get options "week" PyNone) (get options "platform" PyNone)
      (get options "league_id" PyNone) (get options "game_id" PyNone)
      (get options "year" PyNone) (get options "refresh_web_data" (PyBool false))
      (get options "playoff_prob_sims" PyNone) (get options "break_ties" (PyBool false))
      (get options "dq_ce" (PyBool false)) (get options "save_data" (PyBool false))
      (get options "dev_offline" (PyBool false)) (get options "test" (PyBool false)) s =
    (report ← build (keywords options (get options "week" PyNone)
                       (Some (get options "league_id" PyNone)));
     mret (Some report)) s).
  { intros s. unfold select_league. cbn [select_league_rec].
    rewrite Hleague. cbn [negb]. rewrite ret_bind.
    cbn [String.eqb Ascii.eqb Bool.eqb]. unfold resolve_week. rewrite Hweek. cbn [negb].
    rewrite ret_bind. reflexivity. }
  unfold run_report.
  assert (Heq : forall s,
    (report ← select_league (get options "week" PyNone) (get options "platform" PyNone)
      (get options "league_id" PyNone) (get options "game_id" PyNone)
      (get options "year" PyNone) (get options "refresh_web_data" (PyBool false))
      (get options "playoff_prob_sims" PyNone) (get options "break_ties" (PyBool false))
      (get options "dq_ce" (PyBool false)) (get options "save_data" (PyBool false))
      (get options "dev_offline" (PyBool false)) (get options "test" (PyBool false));
     report_pdf ← create_pdf report; distribute config options report_pdf) s =
    (report ← (report ← build (keywords options (get options "week" PyNone)
                       (Some (get options "league_id" PyNone)));
     mret (Some report));
     report_pdf ← create_pdf report; distribute config options report_pdf) s).
  { intros s. rewrite !(bind_run _ (fun report => _ ≫= _)). rewrite Hsel. reflexivity. }
  rewrite Heq. split.
  - revert stdin. apply keeps_bind.
    + keeps_step; [apply build_keeps | keeps_step].
    + intros report. keeps_step; [apply create_pdf_keeps | apply distribute_keeps_stdin].
  - revert stdin.
    assert (He : emits (fun e => is_console e = false) (fun _ : unit => True)
      (report ← (report ← build (keywords options (get options "week" PyNone)
                       (Some (get options "league_id" PyNone)));
     mret (Some report));
     report_pdf ← create_pdf report; distribute config options report_pdf)).
    { eapply emits_bind with (Q1 := fun _ => True).
      - eapply emits_bind; [apply build_emits; reflexivity |].
        intros; apply emits_ret; exact I.
      - intros report _. eapply emits_bind with (Q1 := fun _ => True).
        + apply create_pdf_emits. reflexivity.
        + intros pdf _. apply distribute_emits_sinks.
          * intros [] He; try discriminate; reflexivity.
          * reflexivity. }
    intros stdin. apply He.
Qed.

End BatchRun.

Section LeagueReport.
Context `{C : Collaborators}.

Lemma build_ret_inv (args : report_args) (stdin rest : list string) (r : Report)
    (evs : list event) :
  build args stdin = (Ret r, rest, evs) ->
  FantasyFootballReport args = Ret r /\ rest = stdin /\ evs = [EBuild args].
Proof.
  unfold build. rewrite bind_run. cbn [emit lift].
  destruct (FantasyFootballReport args); intros H; inversion H; subst. auto.
Qed.

Lemma resolve_week_console (week : pyval) (stdin : list string) :
  Forall (fun e => is_console e = true) (events_of (resolve_week week stdin)).
Proof.
  unfold resolve_week. destruct (negb (truthy week)); [| constructor].
  apply (select_week_emits (fun e => is_console e = true)). auto.
Qed.

(** The block the three accepting branches share. *)
Lemma build_block_inv (week : pyval) (mk : pyval -> report_args)
    (stdin rest : list string) (r : Report) (evs : list event) :
  (week_for_report ← resolve_week week;
   report ← build (mk week_for_report);
   mret (Some report)) stdin = (Ret (Some r), rest, evs) ->
  exists pre wk,
    evs = pre ++ [EBuild (mk wk)] /\ FantasyFootballReport (mk wk) = Ret r /\
    Forall (fun e => is_console e = true) pre.
Proof.
  intros H. apply bind_ret_inv in H as (wk & s1 & e1 & e2 & Hw & H & ->).
  apply bind_ret_inv in H as (r' & s2 & e3 & e4 & Hb & H & ->).
  inversion H; subst. apply build_ret_inv in Hb as (Hb & _ & ->).
  exists e1, wk. rewrite app_nil_r. repeat split; [exact Hb |].
  pose proof (resolve_week_console week stdin) as Hc. rewrite Hw in Hc. exact Hc.
Qed.

Lemma retry_never_returns_report (text : string) (retry : M (option Report))
    (stdin rest : list string) (r : Report) (evs : list event) :
  (print text;; retry;; mret None) stdin <> (Ret (Some r), rest, evs).
Proof.
  rewrite bind_run. cbn [print emit]. rewrite bind_run.
  destruct (retry stdin) as [[[a | e | c] s] evs']; cbn; discriminate.
Qed.

Lemma select_league_some_inv
    (week platform league_id game_id season refresh_web_data playoff_prob_sims
       break_ties dq_ce save_data dev_offline test : pyval)
    (stdin rest : list string) (r : Report) (evs : list event) :
  select_league week platform league_id game_id season refresh_web_data
    playoff_prob_sims break_ties dq_ce save_data dev_offline test stdin
    = (Ret (Some r), rest, evs) ->
  exists pre args,
    evs = pre ++ [EBuild args] /\ FantasyFootballReport args = Ret r /\
    Forall (fun e => is_console e = true) pre.
Proof.
  unfold select_league. generalize (length stdin). intros fuel H.
  cbn [select_league_rec] in H.
  apply bind_ret_inv in H as (default & s1 & e1 & e2 & Hd & H & ->).
  assert (He1 : Forall (fun e => is_console e = true) e1).
  { destruct (negb (truthy league_id)).
    - destruct stdin; inversion Hd; subst; repeat constructor.
    - inversion Hd. constructor. }
  assert (Hblock : forall mk s rest' evs',
    (week_for_report ← resolve_week week;
     report ← build (mk week_for_report);
     mret (Some report)) s = (Ret (Some r), rest', evs') ->
    exists pre args,
      e1 ++ evs' = pre ++ [EBuild args] /\ FantasyFootballReport args = Ret r /\
      Forall (fun e => is_console e = true) pre).
  { intros mk s rest' evs' Hb. apply build_block_inv in Hb as (pre & wk & -> & Hr & Hpre).
    exists (e1 ++ pre), (mk wk). rewrite app_assoc. repeat split; [exact Hr |].
    apply Forall_app. auto. }
  destruct (String.eqb default "y").
  { apply (Hblock (fun wk => {| week_for_report := wk; platform := platform;
                                 league_id := None; game_id := game_id; season := season;
                                 refresh_web_data := refresh_web_data;
                                 playoff_prob_sims := playoff_prob_sims;
                                 break_ties := break_ties; dq_ce := dq_ce;
                                 save_data := save_data; dev_offline := dev_offline;
                                 test := test |}) _ _ _ H). }
  destruct (String.eqb default "n").
  { apply bind_ret_inv in H as (id & s2 & e3 & e4 & Hid & H & ->).
    apply bind_ret_inv in H as (wk & s3 & e5 & e6 & Hw & H & ->).
    unfold try_except_IndexError in H.
    match type of H with
    | context [match ?b s3 with _ => _ end] => destruct (b s3) as [[[a | e | c] s4] e7] eqn:Hb
    end.
    - inversion H; subst.
      apply bind_ret_inv in Hb as (r' & s5 & e8 & e9 & Hb & Hs & ->).
      inversion Hs; subst. apply build_ret_inv in Hb as (Hb & _ & ->).
      eexists (e1 ++ e3 ++ e5), _. rewrite app_nil_r.
      split; [rewrite <- !app_assoc; reflexivity |]. split; [exact Hb |].
      apply Forall_app. split; [exact He1 |]. apply Forall_app. split.
      + destruct s1; inversion Hid; subst; repeat constructor.
      + pose proof (resolve_week_console week s2) as Hc. rewrite Hw in Hc. exact Hc.
    - destruct e; try discriminate H.
      exfalso.
      match type of H with
      | (let (_, _) := ?h s4 in _) = _ => destruct (h s4) as [[o s5] e8] eqn:Hh
      end.
      inversion H; subst. eapply retry_never_returns_report. exact Hh.
    - discriminate H. }
  destruct (String.eqb default "selected").
  { apply (Hblock (fun wk => {| week_for_report := wk; platform := platform;
                                 league_id := Some league_id; game_id := game_id;
                                 season := season;
                                 refresh_web_data := refresh_web_data;
                                 playoff_prob_sims := playoff_prob_sims;
                                 break_ties := break_ties; dq_ce := dq_ce;
                                 save_data := save_data; dev_offline := dev_offline;
                                 test := test |}) _ _ _ H). }
  exfalso. eapply retry_never_returns_report. exact H.
Qed.

End LeagueReport.

Section RunOrder.
Context `{C : Collaborators}.

Lemma select_league_no_sink
    (week platform league_id game_id season refresh_web_data playoff_prob_sims
       break_ties dq_ce save_data dev_offline test : pyval) (stdin : list string) :
  Forall (fun e => is_sink_call e = false)
    (events_of (select_league week platform league_id game_id season refresh_web_data
                  playoff_prob_sims break_ties dq_ce save_data dev_offline test stdin)).
Proof.
  apply (select_league_emits (fun e => is_sink_call e = false) (fun _ => True)).
  - intros [] He; try discriminate; reflexivity.
  - reflexivity.
  - auto.
  - exact I.
Qed.

(** X12. A call into Google Drive or Slack only happens after a call of the
    builder that is followed at once by [create_pdf_report]; before that
    call of the builder there is only dialogue with the operator. *)
Theorem sinks_come_after_the_report (config : config_ini) (options : gmap string pyval)
    (stdin : list string) (e : event) :
  In e (events_of (run_report config options stdin)) -> is_sink_call e = true ->
  exists pre post args,
    events_of (run_report config options stdin) = pre ++ EBuild args :: ECreatePdf :: post /\
    Forall (fun e' => is_console e' = true) pre /\ In e post.
Proof.
  unfold run_report. rewrite bind_run.
  match goal with
  | |- context [select_league ?a1 ?a2 ?a3 ?a4 ?a5 ?a6 ?a7 ?a8 ?a9 ?a10 ?a11 ?a12 stdin] =>
      pose proof (select_league_no_sink a1 a2 a3 a4 a5 a6 a7 a8 a9 a10 a11 a12 stdin) as Hno;
      destruct (select_league a1 a2 a3 a4 a5 a6 a7 a8 a9 a10 a11 a12 stdin)
        as [[[report | x | c] s1] e1] eqn:Hsel
  end; cbn [events_of snd] in Hno; rewrite List.Forall_forall in Hno.
  2, 3: (cbn [events_of snd]; intros Hin Hs; specialize (Hno _ Hin); congruence).
  destruct report as [r |].
  - apply select_league_some_inv in Hsel as (pre & args & -> & _ & Hpre).
    rewrite bind_run. unfold create_pdf. rewrite bind_run. cbn [emit lift].
    destruct (create_pdf_report r) as [pdf | x | c].
    + destruct (distribute config options pdf s1) as [[o s2] e2]. cbn [events_of snd app].
      intros Hin Hs. exists pre, e2, args. rewrite <- app_assoc. cbn [app].
      repeat split; [exact Hpre |].
      apply in_app_or in Hin as [Hin | Hin].
      * specialize (Hno _ Hin). congruence.
      * destruct Hin as [<- | Hin]; [discriminate Hs | exact Hin].
    + cbn [events_of snd app]. intros Hin Hs. exfalso.
      apply in_app_or in Hin as [Hin | [<- | []]]; [| discriminate Hs].
      specialize (Hno _ Hin). congruence.
    + cbn [events_of snd app]. intros Hin Hs. exfalso.
      apply in_app_or in Hin as [Hin | [<- | []]]; [| discriminate Hs].
      specialize (Hno _ Hin). congruence.
  - rewrite bind_run. cbn. rewrite app_nil_r. intros Hin Hs. exfalso.
    specialize (Hno _ Hin). congruence.
Qed.

(** X10. "selected" typed at the prompt for the default league is taken as
    an answer: without a league ID and with a week in hand, the builder is
    called at once with the empty league ID passed on, and an exception it
    raises, [IndexError] included, is not caught. *)
Theorem selected_typed_at_the_prompt
    (week platform league_id game_id season refresh_web_data playoff_prob_sims
       break_ties dq_ce save_data dev_offline test : pyval) (stdin : list string) :
  truthy league_id = false -> truthy week = true ->
  select_league week platform league_id game_id season refresh_web_data
    playoff_prob_sims break_ties dq_ce save_data dev_offline test ("selected" :: stdin) =
  after [EInput "Generate report for default league? (y/n) -> ";
         EBuild {| week_for_report := week; platform := platform;
                   league_id := Some league_id; game_id := game_id; season := season;
                   refresh_web_data := refresh_web_data;
                   playoff_prob_sims := playoff_prob_sims;
                   break_ties := break_ties; dq_ce := dq_ce; save_data := save_data;
                   dev_offline := dev_offline; test := test |}]
    (match FantasyFootballReport
             {| week_for_report := week; platform := platform;
                league_id := Some league_id; game_id := game_id; season := season;
                refresh_web_data := refresh_web_data;
                playoff_prob_sims := playoff_prob_sims;
                break_ties := break_ties; dq_ce := dq_ce; save_data := save_data;
                dev_offline := dev_offline; test := test |} with
     | Ret report => (Ret (Some report), stdin, [])
     | Raise e => (Raise e, stdin, [])
     | Exit c => (Exit c, stdin, [])
     end).
Proof.
  intros Hleague Hweek. unfold select_league. cbn [length select_league_rec].
  rewrite Hleague. cbn [negb]. rewrite bind_run. cbn [input].
  cbn [String.eqb Ascii.eqb Bool.eqb]. unfold resolve_week. rewrite Hweek. cbn [negb].
  rewrite ret_bind. unfold build. rewrite !bind_run. cbn [emit lift].
  destruct (FantasyFootballReport _); reflexivity.
Qed.

(** X13. An exception of [pkg_resources.require] that the scan does not
    handle ends it on the spot: the failures found before are logged, the
    later dependencies are not checked and no summary is logged. *)
Theorem preflight_stops_at_unhandled_exception (requirements : list string)
    (pre post : list string) (dependency : string) (e : exn) (stdin : list string) :
  dependencies_of requirements = pre ++ dependency :: post ->
  Forall (fun d => forall e', require d <> RequireRaises e') pre ->
  require dependency = RequireRaises e ->
  preflight requirements stdin = (Raise e, stdin, flat_map remediation pre).
Proof.
  intros Hdeps Hpre Hraise. unfold preflight. rewrite Hdeps, bind_run.
  assert (Hscan : forall count,
    check_dependencies (pre ++ dependency :: post) count stdin =
    (Raise e, stdin, flat_map remediation pre)).
  { clear Hdeps. induction Hpre as [| d pre Hd _ IH]; intros count.
    - cbn [app check_dependencies flat_map]. rewrite bind_run, Hraise. reflexivity.
    - cbn [app check_dependencies flat_map]. rewrite bind_run.
      unfold remediation at 1.
      destruct (require d) as [| dnfe tb | vce tb | e'].
      + cbn [mret M_mret M_ret]. rewrite IH. reflexivity.
      + rewrite !bind_run. cbn [log emit]. rewrite !bind_run. cbn [log emit mret M_mret M_ret].
        rewrite IH. reflexivity.
      + rewrite !bind_run. cbn [log emit]. rewrite !bind_run. cbn [log emit mret M_mret M_ret].
        rewrite IH. reflexivity.
      + exfalso. apply (Hd e'). reflexivity. }
  rewrite Hscan. reflexivity.
Qed.

(** X14. In "file" mode the report itself is sent to Slack, whatever the
    upload to Google Drive gave; a response that is not ok is logged as an
    error with its detail, and the step still returns normally. *)
Theorem slack_file_mode_outcome (config : config_ini) (options : gmap string pyval)
    (report_pdf upload_message : string) (stdin : list string) (m : Messenger)
    (response : slack_response) :
  truthy (get options "test" (PyBool false)) = false ->
  post_to_slack config = true -> post_or_file config = "file" ->
  SlackMessenger = Ret m ->
  upload_file_to_selected_slack_channel m report_pdf = Ret response ->
  slack_step config options report_pdf upload_message stdin =
    (Ret tt, stdin,
     [ESlackMessenger; ESlackFile report_pdf;
      if ok response then
        ELog INFO ("Report " +:+ report_pdf +:+ " successfully posted to Slack!")
      else
        ELog ERROR ("Report " +:+ report_pdf +:+ " was NOT posted to Slack with error: "
                    +:+ error response)]).
Proof.
  intros Htest Hslack Hmode Hm Hresp. unfold slack_step.
  rewrite Hslack, Htest, Hmode. cbn [negb String.eqb Ascii.eqb Bool.eqb].
  rewrite !bind_run. cbn [emit lift]. rewrite Hm. rewrite !bind_run. cbn [emit lift].
  rewrite Hresp. destruct (ok response); reflexivity.
Qed.

End RunOrder.

(** X15. The package named in the install hint of a dependency that was not
    found is what precedes the first character that is not a letter, a
    digit or an underscore: the version is dropped, and so is what follows
    a dash or a dot in the name of the package. *)
Theorem first_word_stops_at_separator (name rest : string) (c : ascii) :
  (forall ch, In ch (list_ascii_of_string name) -> is_word ch = true) ->
  is_word c = false ->
  first_word (name +:+ String c rest) = name.
Proof.
  intros Hname Hc. induction name as [| ch name IH]; simpl.
  - rewrite Hc. reflexivity.
  - rewrite (Hname ch) by (left; reflexivity). rewrite IH; [reflexivity |].
    intros ch' Hin. apply Hname. right. exact Hin.
Qed.

Section OneCall.
Context `{C : Collaborators}.

(** X8. A report that [select_league] returns comes from a single call of
    the builder, the last thing it did, after dialogue with the operator
    only: no report is returned once a league ID was rejected or an answer
    was not understood. *)
Theorem select_league_report_from_one_call
    (week platform league_id game_id season refresh_web_data playoff_prob_sims
       break_ties dq_ce save_data dev_offline test : pyval)
    (stdin rest : list string) (r : Report) (evs : list event) :
  select_league week platform league_id game_id season refresh_web_data
    playoff_prob_sims break_ties dq_ce save_data dev_offline test stdin
    = (Ret (Some r), rest, evs) ->
  exists pre args,
    evs = pre ++ [EBuild args] /\ FantasyFootballReport args = Ret r /\
    Forall (fun e => is_console e = true) pre.
Proof. apply select_league_some_inv. Qed.

End OneCall.

(** ** The further properties at runs of the sample installation *)

Lemma long_options_rejected_witness :
  parse_args ["--week"; "5"] ["y"] = (Exit (Some 2%Z), ["y"], [EPrint usage_str]) /\
  exit_status (outcome_of (parse_args ["--week"; "5"] ["y"])) = 2%Z.
Proof. apply long_options_rejected; [reflexivity | discriminate]. Defined.

Lemma positional_argument_ends_options_witness :
  parse_args ["5"; "-t"; "-l"; "1234"] ["y"] = (Ret ∅, ["y"], []).
Proof. apply positional_argument_ends_options. left. reflexivity. Defined.

Lemma help_ends_option_loop_witness :
  parse_opts ([("-w", "25")] ++ ("-h", "") :: [("-t", "")]) ∅ ["y"; "n"] =
    (Exit None, ["n"],
     [EPrint (nl +:+ "Please select a valid week number from 1 to 17.");
      EInput "Generate report for default week? (y/n) -> "] ++ [EPrint usage_str]) /\
  exit_status
    (outcome_of (parse_opts ([("-w", "25")] ++ ("-h", "") :: [("-t", "")]) ∅ ["y"; "n"]))
    = 0%Z.
Proof.
  apply (help_ends_option_loop [("-w", "25")] [("-t", "")] "-h" "" ∅
           (<["week" := PyNone]> ∅)); reflexivity.
Defined.

Lemma select_league_report_from_one_call_witness :
  exists pre args,
    [EInput "Generate report for default league? (y/n) -> ";
     EInput "What is the league ID of the league for which you want to generate a report? -> ";
     EBuild (sample_args (Some (PyStr "1234")))] = pre ++ [EBuild args] /\
    @FantasyFootballReport sample args = Ret "league 1234" /\
    Forall (fun e => is_console e = true) pre.
Proof.
  apply (select_league_report_from_one_call (C := sample)
           (PyStr "5") PyNone PyNone PyNone PyNone (PyBool false) PyNone
           (PyBool false) (PyBool false) (PyBool false) (PyBool false) (PyBool false)
           ["n"; "1234"] []).
  reflexivity.
Defined.

Lemma select_league_rejected_id_witness :
  select_league (C := sample) (PyStr "5") PyNone PyNone PyNone PyNone (PyBool false) PyNone
    (PyBool false) (PyBool false) (PyBool false) (PyBool false) (PyBool false)
    ("n" :: "999" :: ["n"; "1234"]) =
  match select_league (C := sample) (PyStr "5") PyNone PyNone PyNone PyNone (PyBool false)
          PyNone (PyBool false) (PyBool false) (PyBool false) (PyBool false) (PyBool false)
          ["n"; "1234"] with
  | (r, rest, evs) =>
      (match r with Ret _ => Ret None | Raise e => Raise e | Exit c => Exit c end,
       rest,
       [EInput "Generate report for default league? (y/n) -> ";
        EInput "What is the league ID of the league for which you want to generate a report? -> ";
        EBuild (sample_args (Some (PyStr "999")));
        EPrint "The league ID you have selected is not valid."] ++ evs)
  end.
Proof.
  apply (select_league_rejected_id (C := sample)); reflexivity.
Defined.

Lemma selected_typed_at_the_prompt_witness :
  select_league (C := sample) (PyStr "5") PyNone PyNone PyNone PyNone (PyBool false) PyNone
    (PyBool false) (PyBool false) (PyBool false) (PyBool false) (PyBool false)
    ("selected" :: ["y"]) =
  after [EInput "Generate report for default league? (y/n) -> ";
         EBuild (sample_args (Some PyNone))]
    (Ret (Some "default league"), ["y"], []).
Proof.
  apply (selected_typed_at_the_prompt (C := sample)); reflexivity.
Defined.

Lemma batch_run_reads_nothing_witness :
  unread_of (run_report (C := sample) (sample_config true true "file")
               (<["league_id" := PyStr "1234"]> (<["week" := PyStr "5"]> ∅)) ["y"; "n"])
    = ["y"; "n"] /\
  Forall (fun e => is_console e = false)
    (events_of (run_report (C := sample) (sample_config true true "file")
                  (<["league_id" := PyStr "1234"]> (<["week" := PyStr "5"]> ∅)) ["y"; "n"])).
Proof.
  apply (batch_run_reads_nothing (C := sample)); reflexivity.
Defined.

Lemma sinks_come_after_the_report_witness :
  exists pre post args,
    events_of (run_report (C := sample) (sample_config true false "post")
                 (<["week" := PyStr "5"]> ∅) ["n"; "1234"])
      = pre ++ EBuild args :: ECreatePdf :: post /\
    Forall (fun e' => is_console e' = true) pre /\ In EDriveUpload post.
Proof.
  apply (sinks_come_after_the_report (C := sample)); [| reflexivity].
  vm_compute. right. right. right. right. right. left. reflexivity.
Defined.

Lemma preflight_stops_at_unhandled_exception_witness :
  preflight (C := unparsable_requirement)
    ["docopt==0.6.2" +:+ nl; "-e ." +:+ nl; "requests>=2.20" +:+ nl] ["y"] =
  (Raise (OtherError "RequirementParseError"), ["y"],
   flat_map (remediation (C := unparsable_requirement)) ["docopt==0.6.2"]).
Proof.
  apply (preflight_stops_at_unhandled_exception (C := unparsable_requirement)
           _ ["docopt==0.6.2"] ["requests>=2.20"] "-e .").
  - reflexivity.
  - repeat (constructor; [intros e H; vm_compute in H; discriminate H |]). constructor.
  - reflexivity.
Defined.

Lemma slack_file_mode_outcome_witness :
  slack_step (C := unparsable_requirement) (sample_config false true "file") ∅
    "report.pdf" "" ["y"] =
  (Ret tt, ["y"],
   [ESlackMessenger; ESlackFile "report.pdf";
    if ok {| ok := false; error := "channel_not_found" |} then
      ELog INFO ("Report " +:+ "report.pdf" +:+ " successfully posted to Slack!")
    else
      ELog ERROR ("Report " +:+ "report.pdf" +:+ " was NOT posted to Slack with error: "
                  +:+ error {| ok := false; error := "channel_not_found" |})]).
Proof.
  apply (slack_file_mode_outcome (C := unparsable_requirement)
           (sample_config false true "file") ∅ "report.pdf" "" ["y"] tt);
    reflexivity.
Defined.

Lemma first_word_stops_at_separator_witness :
  first_word ("google" +:+ String "-" "api-python-client==1.7.4") = "google".
Proof.
  apply first_word_stops_at_separator; [| reflexivity].
  intros ch Hin. simpl in Hin.
  repeat (destruct Hin as [<- | Hin]; [reflexivity |]). destruct Hin.
Defined.
